(** * bom-parser: the upload pipeline of [frontend/src/routes/_layout/index.tsx]

    The [Dashboard] component drives a chain of remote calls (signed URL,
    PUT of the bytes, processing task, long-running operation, conversion
    task) and observes three of them by [setInterval] polling.  Everything
    runs on the JavaScript event loop: a handler runs until its next [await],
    then the rest of it runs when the awaited promise settles.

    The embedding is a labelled transition system.  A state holds the React
    state of the component ([uploadStatus], [downloadUrl], [showDownload]),
    the three interval refs, and the two things the browser keeps for the
    component: the live intervals with the closure each one runs, and the
    awaited promises with the continuation each one resumes.  An event is a
    user gesture, the firing of a live interval, or the settlement of an
    awaited promise.  Time is left out: a live interval may fire at any
    turn, also while an earlier invocation of its callback is still awaiting
    an answer, and a request may be answered at any turn.

    The source file holds two revisions of the page.  The embedding follows
    the first one.  The second has the same handlers up to the names of the
    client methods, the text of two messages and a check of the shape of
    the download response; it renders the file input in stage [idle] only,
    which [step_later] adds to [step]. *)

From Stdlib Require Import ZArith String List Bool Lia.
Import ListNotations.
From stdpp Require Import base option gmap fin_maps.

Open Scope Z_scope.
Open Scope string_scope.

(** ** Data *)

(** [UploadStatus["stage"]]: the union of six string literals. *)
Module Stage.
Inductive t : Set :=
| idle | uploading | processing | converting | completed | error.

Definition eqb (a b : t) : bool :=
  match a, b with
  | idle, idle | uploading, uploading | processing, processing
  | converting, converting | completed, completed | error, error => true
  | _, _ => false
  end.

Definition all : list t :=
  idle :: uploading :: processing :: converting :: completed :: error :: nil.
End Stage.

(** [interface UploadStatus]; [error] is the optional field. *)
Record UploadStatus : Set := mkStatus {
  stage : Stage.t;
  message : string;
  progress : Z;
  error : option string
}.

(** The part of a [File] the component reads. *)
Record File : Set := mkFile { f_name : string; f_type : string }.

(** Payload of [TaskService.getTaskResult]: either field may be absent. *)
Record TaskResult : Set := mkResult {
  operation_name : option string;
  gcs_download_path : option string
}.

(** What a remote call resolves to, one constructor per call of the client. *)
Inductive Response : Set :=
| UploadResponse (signed_url file_key file_name : string)
| FetchResponse (ok : bool) (statusText : string)
| ProcessResponse (task_id : string)
| StatusResponse (status : string)
| ResultResponse (r : option TaskResult)
| OperationResponse (done : bool)
| ConvertResponse (task_id : string)
| DownloadResponse (signed_url file_name : string).

(** A promise resolves with a response or rejects with an [Error] whose
    [message] the handlers read. *)
Inductive Outcome : Set :=
| Resolved (r : Response)
| Rejected (msg : string).

(** The closure an interval runs; the arguments are the variables it
    captured. *)
Inductive TimerCb : Set :=
| CB_status (task_id file_key : string)
| CB_operation (operationName file_key : string)
| CB_convert (convertTaskId : string).

(** The rest of a handler after one of its [await]s, with the variables
    that rest still reads. *)
Inductive Cont : Set :=
| K_upload (file : File)                     (* await DocumentService.uploadDocument *)
| K_put (file_key file_name : string)        (* await fetch(signed_url, PUT) *)
| K_process (file_key : string)              (* await DocumentService.processDocument *)
| K_status (task_id file_key : string)       (* await TaskService.getTaskStatus(task_id) *)
| K_result (task_id file_key : string)       (* await TaskService.getTaskResult(task_id) *)
| K_operation (operationName file_key : string) (* await getOperationStatus *)
| K_convert (file_key : string)              (* await DocumentService.convertDocument *)
| K_cstatus (convertTaskId : string)         (* await getTaskStatus(convertTaskId) *)
| K_cresult (convertTaskId : string)         (* await getTaskResult(convertTaskId) *)
| K_download.                                (* await DocumentService.downloadDocument *)

(** Interval handles are positive numbers, so a handle is never falsy and
    [if (ref.current)] tests for [null] only. *)
Record State : Type := mkState {
  uploadStatus : UploadStatus;
  downloadUrl : string;
  showDownload : bool;
  statusCheckInterval : option nat;
  operationCheckInterval : option nat;
  convertCheckInterval : option nat;
  timers : gmap nat TimerCb;
  pending : gmap nat Cont;
  next_timer : nat;
  next_promise : nat
}.

Inductive Event : Set :=
| SelectFile (file : option File)   (* onChange of the file input *)
| ClickDownload
| ClickReset
| Tick (t : nat)                    (* interval t fires *)
| Settle (p : nat) (o : Outcome).   (* awaited promise p settles *)

(** ** The component *)

Definition initial : State :=
  {| uploadStatus := mkStatus Stage.idle EmptyString 0 None;
     downloadUrl := EmptyString; showDownload := false;
     statusCheckInterval := None; operationCheckInterval := None;
     convertCheckInterval := None;
     timers := ∅; pending := ∅; next_timer := 1; next_promise := 0 |}.

Definition setUploadStatus (u : UploadStatus) (s : State) : State :=
  {| uploadStatus := u;
     downloadUrl := downloadUrl s; showDownload := showDownload s;
     statusCheckInterval := statusCheckInterval s;
     operationCheckInterval := operationCheckInterval s;
     convertCheckInterval := convertCheckInterval s;
     timers := timers s; pending := pending s;
     next_timer := next_timer s; next_promise := next_promise s |}.

Definition updateStatus (stg : Stage.t) (msg : string) (prog : Z)
    (err : option string) (s : State) : State :=
  setUploadStatus (mkStatus stg msg prog err) s.

Definition setDownloadUrl (u : string) (s : State) : State :=
  {| uploadStatus := uploadStatus s;
     downloadUrl := u; showDownload := showDownload s;
     statusCheckInterval := statusCheckInterval s;
     operationCheckInterval := operationCheckInterval s;
     convertCheckInterval := convertCheckInterval s;
     timers := timers s; pending := pending s;
     next_timer := next_timer s; next_promise := next_promise s |}.

Definition setShowDownload (b : bool) (s : State) : State :=
  {| uploadStatus := uploadStatus s;
     downloadUrl := downloadUrl s; showDownload := b;
     statusCheckInterval := statusCheckInterval s;
     operationCheckInterval := operationCheckInterval s;
     convertCheckInterval := convertCheckInterval s;
     timers := timers s; pending := pending s;
     next_timer := next_timer s; next_promise := next_promise s |}.

Definition set_timers (m : gmap nat TimerCb) (s : State) : State :=
  {| uploadStatus := uploadStatus s;
     downloadUrl := downloadUrl s; showDownload := showDownload s;
     statusCheckInterval := statusCheckInterval s;
     operationCheckInterval := operationCheckInterval s;
     convertCheckInterval := convertCheckInterval s;
     timers := m; pending := pending s;
     next_timer := next_timer s; next_promise := next_promise s |}.

Definition set_pending (m : gmap nat Cont) (s : State) : State :=
  {| uploadStatus := uploadStatus s;
     downloadUrl := downloadUrl s; showDownload := showDownload s;
     statusCheckInterval := statusCheckInterval s;
     operationCheckInterval := operationCheckInterval s;
     convertCheckInterval := convertCheckInterval s;
     timers := timers s; pending := m;
     next_timer := next_timer s; next_promise := next_promise s |}.

(** [clearInterval(h)] on the live intervals: nothing happens for [null]
    or a handle that is no longer live. *)
Definition odelete (h : option nat) (m : gmap nat TimerCb) : gmap nat TimerCb :=
  match h with
  | Some t => delete t m
  | None => m
  end.

Definition clearInterval (h : option nat) (s : State) : State :=
  set_timers (odelete h (timers s)) s.

(** The three interval refs. *)
Inductive Ref : Set := StatusRef | OperationRef | ConvertRef.

Definition current (r : Ref) (s : State) : option nat :=
  match r with
  | StatusRef => statusCheckInterval s
  | OperationRef => operationCheckInterval s
  | ConvertRef => convertCheckInterval s
  end.

Definition set_current (r : Ref) (h : option nat) (s : State) : State :=
  {| uploadStatus := uploadStatus s;
     downloadUrl := downloadUrl s; showDownload := showDownload s;
     statusCheckInterval :=
       match r with StatusRef => h | _ => statusCheckInterval s end;
     operationCheckInterval :=
       match r with OperationRef => h | _ => operationCheckInterval s end;
     convertCheckInterval :=
       match r with ConvertRef => h | _ => convertCheckInterval s end;
     timers := timers s; pending := pending s;
     next_timer := next_timer s; next_promise := next_promise s |}.

(** [ref.current = setInterval(cb, ms)]: a fresh handle, stored in the ref
    over whatever the ref held. *)
Definition setInterval (r : Ref) (cb : TimerCb) (s : State) : State :=
  let t := next_timer s in
  {| uploadStatus := uploadStatus s;
     downloadUrl := downloadUrl s; showDownload := showDownload s;
     statusCheckInterval :=
       match r with StatusRef => Some t | _ => statusCheckInterval s end;
     operationCheckInterval :=
       match r with OperationRef => Some t | _ => operationCheckInterval s end;
     convertCheckInterval :=
       match r with ConvertRef => Some t | _ => convertCheckInterval s end;
     timers := <[t := cb]> (timers s); pending := pending s;
     next_timer := S t; next_promise := next_promise s |}.

(** A remote call is issued and the handler suspends on it. *)
Definition await (k : Cont) (s : State) : State :=
  let p := next_promise s in
  {| uploadStatus := uploadStatus s;
     downloadUrl := downloadUrl s; showDownload := showDownload s;
     statusCheckInterval := statusCheckInterval s;
     operationCheckInterval := operationCheckInterval s;
     convertCheckInterval := convertCheckInterval s;
     timers := timers s; pending := <[p := k]> (pending s);
     next_timer := next_timer s; next_promise := S p |}.

(** One [if (ref.current) { clearInterval(ref.current); ref.current = null }]. *)
Definition clear_ref (r : Ref) (s : State) : State :=
  match current r s with
  | Some t => set_current r None (clearInterval (Some t) s)
  | None => s
  end.

Definition clearIntervals (s : State) : State :=
  clear_ref ConvertRef (clear_ref OperationRef (clear_ref StatusRef s)).

(** JavaScript truthiness of an optional string field: absent and the empty
    string are both falsy. *)
Definition truthy (o : option string) : bool :=
  match o with
  | Some v => negb (String.eqb v EmptyString)
  | None => false
  end.

(** *** [handleFileUpload] *)

(** The [catch] of [handleFileUpload]: it covers the three direct calls
    made before the first interval is started. *)
Definition catch_upload (msg : string) (s : State) : State :=
  clearIntervals (updateStatus Stage.error "發生錯誤" 0 (Some msg) s).

(** The [catch] of the task-status interval callback. *)
Definition catch_status (msg : string) (s : State) : State :=
  updateStatus Stage.error "檢查任務狀態失敗" 0 (Some msg)
    (clearInterval (statusCheckInterval s) s).

(** The [catch] of the operation-status interval callback. *)
Definition catch_operation (msg : string) (s : State) : State :=
  updateStatus Stage.error "查詢作業狀態失敗" 0 (Some msg)
    (clearInterval (operationCheckInterval s) s).

(** [handleFileUpload(file)] up to its first [await]. *)
Definition handleFileUpload (file : File) (s : State) : State :=
  await (K_upload file) (updateStatus Stage.uploading "正在準備上傳..." 10 None s).

Definition handleFileSelect (file : option File) (s : State) : State :=
  match file with
  | Some f =>
      if String.eqb (f_type f) "application/pdf"
      then handleFileUpload f s
      else updateStatus Stage.error "請選擇有效的 PDF 檔案" 0 (Some "檔案格式不正確") s
  | None => updateStatus Stage.error "請選擇有效的 PDF 檔案" 0 (Some "檔案格式不正確") s
  end.

(** The callback of an interval, up to its first [await]. *)
Definition fire (cb : TimerCb) (s : State) : State :=
  match cb with
  | CB_status task_id file_key => await (K_status task_id file_key) s
  | CB_operation operationName file_key =>
      await (K_operation operationName file_key) s
  | CB_convert convertTaskId => await (K_cstatus convertTaskId) s
  end.

(** The rest of a handler once the promise it awaits has settled, up to
    the next [await] or the end of the handler.  [None]: the response is
    not one the awaited call can produce. *)
Definition resume (k : Cont) (o : Outcome) (s : State) : option State :=
  match k, o with
  (* handleFileUpload, steps 1 to 3 *)
  | K_upload file, Resolved (UploadResponse signed_url file_key file_name) =>
      Some (await (K_put file_key file_name)
              (updateStatus Stage.uploading "檔案正在上傳中..." 30 None s))
  | K_upload _, Rejected msg => Some (catch_upload msg s)
  | K_put file_key file_name, Resolved (FetchResponse ok statusText) =>
      if ok
      then Some (await (K_process file_key)
                   (updateStatus Stage.processing
                      "上傳完成，正在排入處理佇列..." 50 None s))
      else Some (catch_upload ("上傳失敗: " ++ statusText) s)
  | K_put _ _, Rejected msg => Some (catch_upload msg s)
  | K_process file_key, Resolved (ProcessResponse task_id) =>
      Some (setInterval StatusRef (CB_status task_id file_key)
              (updateStatus Stage.processing "處理任務已啟動，請稍候..." 60 None s))
  | K_process _, Rejected msg => Some (catch_upload msg s)
  (* step 4: the task-status callback *)
  | K_status task_id file_key, Resolved (StatusResponse status) =>
      if String.eqb status "SUCCESS" then
        Some (await (K_result task_id file_key)
                (updateStatus Stage.processing "辨識完成，查詢作業狀態中..." 70 None
                   (clearInterval (statusCheckInterval s) s)))
      else if String.eqb status "FAILURE" then
        Some (updateStatus Stage.error "處理失敗" 0 (Some "任務執行失敗")
                (clearInterval (statusCheckInterval s) s))
      else
        Some (updateStatus Stage.processing
                ("處理中... (狀態: " ++ status ++ ")") 65 None s)
  | K_status _ _, Rejected msg => Some (catch_status msg s)
  (* step 5: the task result, still inside the try of the status callback *)
  | K_result task_id file_key, Resolved (ResultResponse resultResp) =>
      match resultResp with
      | Some r =>
          if truthy (operation_name r) then
            match operation_name r with
            | Some operationName =>
                Some (setInterval OperationRef
                        (CB_operation operationName file_key) s)
            | None => Some (catch_status "任務結果中沒有 operation_name" s)
            end
          else Some (catch_status "任務結果中沒有 operation_name" s)
      | None => Some (catch_status "任務結果中沒有 operation_name" s)
      end
  | K_result _ _, Rejected msg => Some (catch_status msg s)
  (* the operation-status callback *)
  | K_operation operationName file_key, Resolved (OperationResponse done) =>
      if done then
        Some (await (K_convert file_key)
                (updateStatus Stage.converting "作業完成！可進行後續轉換。" 80 None
                   (clearInterval (operationCheckInterval s) s)))
      else
        Some (updateStatus Stage.processing "作業處理中，請稍候..." 75 None s)
  | K_operation _ _, Rejected msg => Some (catch_operation msg s)
  (* step 6: the conversion request, inside the try of the operation callback *)
  | K_convert file_key, Resolved (ConvertResponse convertTaskId) =>
      Some (setInterval ConvertRef (CB_convert convertTaskId)
              (updateStatus Stage.converting "轉換任務已啟動，請稍候..." 85 None s))
  | K_convert _, Rejected msg => Some (catch_operation msg s)
  (* the convert-status callback: it has no try, so a rejection ends this
     invocation and nothing else *)
  | K_cstatus convertTaskId, Resolved (StatusResponse status) =>
      if String.eqb status "SUCCESS" then
        Some (await (K_cresult convertTaskId)
                (updateStatus Stage.completed "轉換完成！" 100 None
                   (clearInterval (convertCheckInterval s) s)))
      else if String.eqb status "FAILURE" then
        Some (updateStatus Stage.error "轉換失敗" 0 (Some "轉換過程中發生錯誤")
                (clearInterval (convertCheckInterval s) s))
      else
        Some (updateStatus Stage.converting
                ("轉換中... (狀態: " ++ status ++ ")") 90 None s)
  | K_cstatus _, Rejected _ => Some s
  | K_cresult _, Resolved (ResultResponse resultResp) =>
      match resultResp with
      | Some r =>
          if truthy (gcs_download_path r) then
            match gcs_download_path r with
            | Some path => Some (setShowDownload true (setDownloadUrl path s))
            | None => Some s
            end
          else Some s
      | None => Some s            (* destructuring null throws, uncaught *)
      end
  | K_cresult _, Rejected _ => Some s
  (* handleDownload *)
  | K_download, Resolved (DownloadResponse _ _) => Some s
  | K_download, Rejected msg =>
      Some (updateStatus Stage.error "下載失敗" 0 (Some msg) s)
  | _, Resolved _ => None
  end.

(** [handleDownload] up to its [await]. *)
Definition handleDownload (s : State) : State :=
  if String.eqb (downloadUrl s) EmptyString
  then updateStatus Stage.error "下載失敗" 0 (Some "下載 URL 不存在") s
  else await K_download s.

Definition resetUpload (s : State) : State :=
  setDownloadUrl EmptyString
    (setShowDownload false
       (setUploadStatus (mkStatus Stage.idle EmptyString 0 None)
          (clearIntervals s))).

(** *** What the rendered page offers *)

(** The file input is always rendered; the download button is rendered
    under [showDownload]; a reset button is rendered next to it and, alone,
    in stage [error]. *)
Definition download_shown (s : State) : bool := showDownload s.

Definition reset_shown (s : State) : bool :=
  showDownload s || Stage.eqb (stage (uploadStatus s)) Stage.error.

(** One turn of the event loop.  [None]: the event cannot happen in [s]. *)
Definition step (e : Event) (s : State) : option State :=
  match e with
  | SelectFile file => Some (handleFileSelect file s)
  | ClickDownload => if download_shown s then Some (handleDownload s) else None
  | ClickReset => if reset_shown s then Some (resetUpload s) else None
  | Tick t =>
      match timers s !! t with
      | Some cb => Some (fire cb s)
      | None => None
      end
  | Settle p o =>
      match pending s !! p with
      | Some k => resume k o (set_pending (delete p (pending s)) s)
      | None => None
      end
  end.

Fixpoint run (es : list Event) (s : State) : option State :=
  match es with
  | nil => Some s
  | e :: es' =>
      match step e s with
      | Some s' => run es' s'
      | None => None
      end
  end.

(** The states a run passes through, the start excluded. *)
Fixpoint history (es : list Event) (s : State) : list State :=
  match es with
  | nil => nil
  | e :: es' =>
      match step e s with
      | Some s' => s' :: history es' s'
      | None => nil
      end
  end.

Inductive reachable : State -> Prop :=
| reachable_initial : reachable initial
| reachable_step e s s' : reachable s -> step e s = Some s' -> reachable s'.

(** The state a run from [initial] ends in ([initial] itself when the run
    is not possible). *)
Definition state_after (es : list Event) : State :=
  default initial (run es initial).

Definition stages (h : list State) : list Stage.t :=
  map (fun s => stage (uploadStatus s)) h.

Definition progresses (h : list State) : list Z :=
  map (fun s => progress (uploadStatus s)) h.

(** ** Scenarios *)

Definition pdf : File := mkFile "bom.pdf" "application/pdf".

(** Steps 1 to 3 of [handleFileUpload]: promise 0 is the signed-URL
    request, 1 the PUT, 2 the processing request; interval 1 is then the
    task-status poll. *)
Definition upload_events (file : File)
    (signed_url file_key file_name task_id : string) : list Event :=
  [ SelectFile (Some file);
    Settle 0 (Resolved (UploadResponse signed_url file_key file_name));
    Settle 1 (Resolved (FetchResponse true "OK"));
    Settle 2 (Resolved (ProcessResponse task_id)) ].

(** One check of interval [t] whose request is promise [p]. *)
Definition poll (t p : nat) (r : Response) : list Event :=
  [ Tick t; Settle p (Resolved r) ].

(** The whole pipeline with every poll answered at its first check. *)
Definition happy_path (file : File)
    (signed_url file_key file_name task_id : string)
    (taskResult : TaskResult) (convertTaskId : string)
    (convertResult : TaskResult) : list Event :=
  upload_events file signed_url file_key file_name task_id
  ++ poll 1 3 (StatusResponse "SUCCESS")
  ++ [ Settle 4 (Resolved (ResultResponse (Some taskResult))) ]
  ++ poll 2 5 (OperationResponse true)
  ++ [ Settle 6 (Resolved (ConvertResponse convertTaskId)) ]
  ++ poll 3 7 (StatusResponse "SUCCESS")
  ++ [ Settle 8 (Resolved (ResultResponse (Some convertResult))) ].

Definition to_task_poll : list Event :=
  upload_events pdf "https://storage/put" "uploads/bom.pdf" "bom.pdf" "task-1".

(** Three checks of interval [t], answered PENDING, PENDING, SUCCESS; the
    requests are promises [p], [p+1] and [p+2]. *)
Definition pending_pending_success (t p : nat) : list Event :=
  poll t p (StatusResponse "PENDING")
  ++ poll t (S p) (StatusResponse "PENDING")
  ++ poll t (S (S p)) (StatusResponse "SUCCESS").

(** The task poll of the first upload observes PENDING, PENDING, SUCCESS. *)
Definition task_poll_pps : list Event := pending_pending_success 1 3.

(** The pipeline up to the first check of the convert poll, the request of
    that check (promise 7) still in flight. *)
Definition to_convert_check : list Event :=
  to_task_poll
  ++ poll 1 3 (StatusResponse "SUCCESS")
  ++ [ Settle 4 (Resolved (ResultResponse
                   (Some (mkResult (Some "operations/42") None)))) ]
  ++ poll 2 5 (OperationResponse true)
  ++ [ Settle 6 (Resolved (ConvertResponse "task-2")); Tick 3 ].

(** Two checks of the task poll are in flight at once: interval 1 fires
    again (promise 4) before the request of its first check (promise 3) is
    answered. *)
Definition two_checks_in_flight : list Event :=
  to_task_poll ++ [ Tick 1; Tick 1 ].

(** The first check is answered FAILURE, which clears the interval and
    shows the reset button; the user resets while the second check is still
    in flight. *)
Definition cancelled_in_flight : list Event :=
  two_checks_in_flight
  ++ [ Settle 3 (Resolved (StatusResponse "FAILURE")); ClickReset ].

(** The second check is answered after the reset. *)
Definition cancel_then_late_answer : list Event :=
  cancelled_in_flight ++ [ Settle 4 (Resolved (StatusResponse "FAILURE")) ].

(** Both checks are answered SUCCESS and both task results arrive: each
    starts an operation poll (intervals 2 and 3) and the second handle
    overwrites the first in [operationCheckInterval].  A check of interval
    3 then fails, which shows the reset button. *)
Definition to_orphaned_interval : list Event :=
  two_checks_in_flight
  ++ [ Settle 3 (Resolved (StatusResponse "SUCCESS"));
       Settle 4 (Resolved (StatusResponse "SUCCESS"));
       Settle 5 (Resolved (ResultResponse
                   (Some (mkResult (Some "operations/42") None))));
       Settle 6 (Resolved (ResultResponse
                   (Some (mkResult (Some "operations/42") None))));
       Tick 3;
       Settle 7 (Rejected "Network Error") ].

(** Two checks of the operation poll are in flight at once: interval 2
    fires again (promise 6) before the request of its first check
    (promise 5) is answered.  Both are answered [done: true] and both
    conversion requests (promises 7 and 8) are answered: each starts a
    convert poll (intervals 3 and 4) and the second handle overwrites the
    first in [convertCheckInterval].  Interval 3 then fires (promise 9). *)
Definition to_two_convert_polls : list Event :=
  to_task_poll
  ++ poll 1 3 (StatusResponse "SUCCESS")
  ++ [ Settle 4 (Resolved (ResultResponse
                   (Some (mkResult (Some "operations/42") None))));
       Tick 2; Tick 2;
       Settle 5 (Resolved (OperationResponse true));
       Settle 6 (Resolved (OperationResponse true));
       Settle 7 (Resolved (ConvertResponse "task-2"));
       Settle 8 (Resolved (ConvertResponse "task-3"));
       Tick 3 ].

(** A second file is selected while the task poll of the first is live. *)
Definition second_upload : list Event :=
  to_task_poll
  ++ [ SelectFile (Some pdf);
       Settle 3 (Resolved (UploadResponse "https://storage/put2"
                             "uploads/bom2.pdf" "bom.pdf"));
       Settle 4 (Resolved (FetchResponse true "OK"));
       Settle 5 (Resolved (ProcessResponse "task-9")) ].

(** The happy path with concrete answers. *)
Definition to_completed : list Event :=
  happy_path pdf "https://storage/put" "uploads/bom.pdf" "bom.pdf" "task-1"
    (mkResult (Some "operations/42") None) "task-2"
    (mkResult None (Some "X")).

(** The download is then requested (promise 9) and the request fails. *)
Definition download_fails : list Event :=
  [ ClickDownload; Settle 9 (Rejected "Network Error") ].

(** The first check of the task poll is answered SUCCESS and the operation
    poll reports progress (75) while the second check of the task poll
    (promise 4) is still in flight. *)
Definition operation_progress_reported : list Event :=
  two_checks_in_flight
  ++ [ Settle 3 (Resolved (StatusResponse "SUCCESS"));
       Settle 5 (Resolved (ResultResponse
                   (Some (mkResult (Some "operations/42") None))));
       Tick 2;
       Settle 6 (Resolved (OperationResponse false)) ].

(** The first check of the task poll is in flight. *)
Definition task_check_in_flight : list Event := to_task_poll ++ [ Tick 1 ].

(** The interval callbacks, and the responses each awaited call can
    produce. *)
Definition is_check (k : Cont) : bool :=
  match k with
  | K_status _ _ | K_operation _ _ | K_cstatus _ => true
  | _ => false
  end.

Definition answers (k : Cont) (r : Response) : bool :=
  match k, r with
  | K_upload _, UploadResponse _ _ _
  | K_put _ _, FetchResponse _ _
  | K_process _, ProcessResponse _
  | K_status _ _, StatusResponse _
  | K_result _ _, ResultResponse _
  | K_operation _ _, OperationResponse _
  | K_convert _, ConvertResponse _
  | K_cstatus _, StatusResponse _
  | K_cresult _, ResultResponse _
  | K_download, DownloadResponse _ _ => true
  | _, _ => false
  end.

Definition terminal (a : Stage.t) : bool :=
  Stage.eqb a Stage.completed || Stage.eqb a Stage.error.

(** *** The later revision of the page *)

(** There the box with the file input is rendered under
    [uploadStatus.stage === "idle"]. *)
Definition file_input_shown_later (s : State) : bool :=
  Stage.eqb (stage (uploadStatus s)) Stage.idle.

Definition step_later (e : Event) (s : State) : option State :=
  match e with
  | SelectFile _ => if file_input_shown_later s then step e s else None
  | _ => step e s
  end.

Fixpoint run_later (es : list Event) (s : State) : option State :=
  match es with
  | nil => Some s
  | e :: es' =>
      match step_later e s with
      | Some s' => run_later es' s'
      | None => None
      end
  end.

(** *** Runs in which one thing happens at a time *)

(** An interval fires and the user clicks download only when no request is
    in flight, and a file is selected only when, besides, no interval is
    live. *)
Definition in_order (e : Event) (s : State) : Prop :=
  match e with
  | SelectFile _ => timers s = ∅ /\ pending s = ∅
  | ClickDownload | Tick _ => pending s = ∅
  | ClickReset | Settle _ _ => True
  end.

Inductive sequential : State -> Prop :=
| sequential_initial : sequential initial
| sequential_step e s s' :
    sequential s -> in_order e s -> step e s = Some s' -> sequential s'.

(** A list of events that is possible from [s] and keeps that order. *)
Fixpoint run_in_order (es : list Event) (s : State) : Prop :=
  match es with
  | [] => True
  | e :: es' =>
      in_order e s
      /\ match step e s with
         | Some s' => run_in_order es' s'
         | None => False
         end
  end.

(** The ref in which the handle of an interval is stored. *)
Definition ref_of (cb : TimerCb) : Ref :=
  match cb with
  | CB_status _ _ => StatusRef
  | CB_operation _ _ => OperationRef
  | CB_convert _ => ConvertRef
  end.

(** The least progress the rest of a handler can write, or the interval it
    starts can lead to. *)
Definition floor_cont (k : Cont) : Z :=
  match k with
  | K_upload _ => 30
  | K_put _ _ => 50
  | K_process _ => 60
  | K_status _ _ => 65
  | K_result _ _ => 75
  | K_operation _ _ => 75
  | K_convert _ => 85
  | K_cstatus _ => 90
  | K_cresult _ => 100
  | K_download => 100
  end.

Definition floor_timer (cb : TimerCb) : Z :=
  match cb with
  | CB_status _ _ => 65
  | CB_operation _ _ => 75
  | CB_convert _ => 90
  end.

(** A request that can be in flight while interval [cb] is live: a check
    of that interval, or a download request. *)
Definition check_of (cb : TimerCb) (k : Cont) : bool :=
  match cb, k with
  | CB_status _ _, K_status _ _
  | CB_operation _ _, K_operation _ _
  | CB_convert _, K_cstatus _
  | _, K_download => true
  | _, _ => false
  end.

(** The four shapes of a state in such a run: nothing going on; one
    request in flight; one interval live, held by its ref; one interval
    live and one of its checks (or a download request) in flight.  The
    progress never exceeds what is still to come. *)
Inductive shape (s : State) : Prop :=
| shape_quiet :
    timers s = ∅ -> pending s = ∅ -> shape s
| shape_request p k :
    timers s = ∅ -> pending s = {[ p := k ]} ->
    progress (uploadStatus s) <= floor_cont k -> shape s
| shape_waiting t cb :
    timers s = {[ t := cb ]} -> current (ref_of cb) s = Some t ->
    pending s = ∅ ->
    progress (uploadStatus s) <= floor_timer cb -> shape s
| shape_checking t cb p k :
    timers s = {[ t := cb ]} -> current (ref_of cb) s = Some t ->
    pending s = {[ p := k ]} -> check_of cb k = true ->
    progress (uploadStatus s) <= floor_timer cb ->
    progress (uploadStatus s) <= floor_cont k -> shape s.

(** Every status the component writes. *)
Definition status_ok (u : UploadStatus) : Prop :=
  0 <= progress u <= 100
  /\ (stage u = Stage.error -> progress u = 0)
  /\ (stage u = Stage.idle -> progress u = 0).

(** The stages of the specification's PipelineState, to compare with
    [Stage.t]. *)
Module SpecStage.
Inductive t : Set :=
| Idle | Uploading | Processing | AwaitingOperation | Converting
| Completed | Failed.
End SpecStage.

(** Each stage of the component is the specification's stage of the same
    name, [error] being [Failed]. *)
Definition spec_stage (a : Stage.t) : SpecStage.t :=
  match a with
  | Stage.idle => SpecStage.Idle
  | Stage.uploading => SpecStage.Uploading
  | Stage.processing => SpecStage.Processing
  | Stage.converting => SpecStage.Converting
  | Stage.completed => SpecStage.Completed
  | Stage.error => SpecStage.Failed
  end.

(** How many times a sequence of stages changes value. *)
Fixpoint stage_changes (a : Stage.t) (l : list Stage.t) : nat :=
  match l with
  | [] => 0%nat
  | b :: l' => ((if Stage.eqb a b then 0 else 1) + stage_changes b l')%nat
  end.

(** The status the task-status callback writes on SUCCESS, after which the
    component waits for the operation. *)
Definition awaiting_operation (u : UploadStatus) : bool :=
  Stage.eqb (stage u) Stage.processing && Z.eqb (progress u) 70.

(** How many times a run of statuses enters a status satisfying [P]. *)
Fixpoint entries (P : UploadStatus -> bool) (prev : bool)
    (l : list UploadStatus) : nat :=
  match l with
  | [] => 0%nat
  | u :: l' =>
      ((if P u && negb prev then 1 else 0) + entries P (P u) l')%nat
  end.

(** ** The rest of the page *)

(** *** What is rendered from the status *)

Inductive IconName : Set := FiCheckCircle | FiAlertCircle | FiFileText.

(** The [Icon] element [getStatusIcon] returns: the icon and its colour. *)
Record StatusIcon : Set := mkIcon { icon_as : IconName; icon_color : string }.

Definition getStatusIcon (s : State) : StatusIcon :=
  match stage (uploadStatus s) with
  | Stage.completed => mkIcon FiCheckCircle "green.500"
  | Stage.error => mkIcon FiAlertCircle "red.500"
  | _ => mkIcon FiFileText "blue.500"
  end.

Definition getStatusColor (s : State) : string :=
  match stage (uploadStatus s) with
  | Stage.completed => "green.600"
  | Stage.error => "red.600"
  | _ => "blue.600"
  end.

(** The progress section is rendered under [stage !== "idle"]; inside it,
    the progress bar under [stage !== "error"] and the alert under
    [uploadStatus.error]. *)
Definition progress_section_shown (s : State) : bool :=
  negb (Stage.eqb (stage (uploadStatus s)) Stage.idle).

Definition progress_bar_shown (s : State) : bool :=
  progress_section_shown s
  && negb (Stage.eqb (stage (uploadStatus s)) Stage.error).

Definition error_alert_shown (s : State) : bool :=
  progress_section_shown s && truthy (error (uploadStatus s)).

(** *** Statuses the handlers write *)

(** The progress values written with each stage. *)
Definition progress_fits (u : UploadStatus) : bool :=
  match stage u with
  | Stage.idle | Stage.error => Z.eqb (progress u) 0
  | Stage.uploading => Z.eqb (progress u) 10 || Z.eqb (progress u) 30
  | Stage.processing =>
      Z.eqb (progress u) 50 || Z.eqb (progress u) 60 || Z.eqb (progress u) 65
      || Z.eqb (progress u) 70 || Z.eqb (progress u) 75
  | Stage.converting =>
      Z.eqb (progress u) 80 || Z.eqb (progress u) 85 || Z.eqb (progress u) 90
  | Stage.completed => Z.eqb (progress u) 100
  end.

(** The [error] field is given exactly with stage [error]. *)
Definition error_fits (u : UploadStatus) : bool :=
  Bool.eqb (Stage.eqb (stage u) Stage.error)
    (match error u with Some _ => true | None => false end).

(** The download button is shown exactly when a download URL is stored. *)
Definition download_fits (s : State) : bool :=
  Bool.eqb (showDownload s) (negb (String.eqb (downloadUrl s) EmptyString)).

(** *** Answers to a check *)

(** The answers on which a poll goes on, and the status it then writes. *)
Definition keeps_polling (cb : TimerCb) (r : Response) : bool :=
  match cb, r with
  | CB_status _ _, StatusResponse status
  | CB_convert _, StatusResponse status =>
      negb (String.eqb status "SUCCESS") && negb (String.eqb status "FAILURE")
  | CB_operation _ _, OperationResponse done => negb done
  | _, _ => false
  end.

Definition pending_status (cb : TimerCb) (r : Response) : UploadStatus :=
  match cb, r with
  | CB_status _ _, StatusResponse status =>
      mkStatus Stage.processing ("處理中... (狀態: " ++ status ++ ")") 65 None
  | CB_convert _, StatusResponse status =>
      mkStatus Stage.converting ("轉換中... (狀態: " ++ status ++ ")") 90 None
  | _, _ => mkStatus Stage.processing "作業處理中，請稍候..." 75 None
  end.

(** The outcomes on which the callback of a check clears its interval. *)
Definition terminal_answer (k : Cont) (o : Outcome) : bool :=
  match k, o with
  | K_status _ _, Resolved (StatusResponse status)
  | K_cstatus _, Resolved (StatusResponse status) =>
      String.eqb status "SUCCESS" || String.eqb status "FAILURE"
  | K_operation _ _, Resolved (OperationResponse done) => done
  | K_status _ _, Rejected _ | K_operation _ _, Rejected _ => true
  | _, _ => false
  end.

(** The failures of the three direct calls of [handleFileUpload], with the
    message its [catch] reads. *)
Definition direct_failure (k : Cont) (o : Outcome) : option string :=
  match k, o with
  | K_upload _, Rejected msg | K_put _ _, Rejected msg
  | K_process _, Rejected msg => Some msg
  | K_put _ _, Resolved (FetchResponse false statusText) =>
      Some ("上傳失敗: " ++ statusText)
  | _, _ => None
  end.

(** A task result from which no operation name can be read. *)
Definition no_operation_name (resultResp : option TaskResult) : bool :=
  match resultResp with
  | Some r => negb (truthy (operation_name r))
  | None => true
  end.

(** *** Polls of any length *)

(** [n] checks of interval [t], each answered [r] before the next; the
    requests are promises [p], [p+1], ... *)
Fixpoint polls (t p : nat) (r : Response) (n : nat) : list Event :=
  match n with
  | O => []
  | S n' => poll t p r ++ polls t (S p) r n'
  end.

(** Interval [t] runs [cb], its ref holds it, nothing else is live or in
    flight. *)
Definition at_poll (t : nat) (cb : TimerCb) (s : State) : Prop :=
  timers s = {[ t := cb ]}
  /\ current (ref_of cb) s = Some t
  /\ pending s = ∅.

(** The whole pipeline with [n1] PENDING answers of the task poll, [n2]
    answers [done: false] of the operation poll and [n3] PENDING answers of
    the convert poll before the final ones. *)
Definition pipeline (file : File)
    (signed_url file_key file_name task_id : string)
    (taskResult : TaskResult) (convertTaskId : string)
    (convertResult : TaskResult) (n1 n2 n3 : nat) : list Event :=
  upload_events file signed_url file_key file_name task_id
  ++ polls 1 3 (StatusResponse "PENDING") n1
  ++ poll 1 (3 + n1) (StatusResponse "SUCCESS")
  ++ [ Settle (S (3 + n1)) (Resolved (ResultResponse (Some taskResult))) ]
  ++ polls 2 (S (S (3 + n1))) (OperationResponse false) n2
  ++ poll 2 (S (S (3 + n1)) + n2) (OperationResponse true)
  ++ [ Settle (S (S (S (3 + n1)) + n2)) (Resolved (ConvertResponse convertTaskId)) ]
  ++ polls 3 (S (S (S (S (3 + n1)) + n2))) (StatusResponse "PENDING") n3
  ++ poll 3 (S (S (S (S (3 + n1)) + n2)) + n3) (StatusResponse "SUCCESS")
  ++ [ Settle (S (S (S (S (S (3 + n1)) + n2)) + n3))
         (Resolved (ResultResponse (Some convertResult))) ].

(** *** Handles *)

(** Handles are handed out in increasing order, and a ref holds a handle
    of its own kind of poll. *)
Definition handles_fit (s : State) : Prop :=
  (forall t cb, timers s !! t = Some cb -> (t < next_timer s)%nat)
  /\ (forall r t, current r s = Some t -> (t < next_timer s)%nat)
  /\ (forall r t cb,
        current r s = Some t -> timers s !! t = Some cb -> ref_of cb = r).

(** What is live or held after was so before, and no handle was handed
    out. *)
Definition shrinks (s s' : State) : Prop :=
  (forall t cb, timers s' !! t = Some cb -> timers s !! t = Some cb)
  /\ (forall r t, current r s' = Some t -> current r s = Some t)
  /\ next_timer s' = next_timer s.

(** *** The order of the stages *)

(** The place of a stage in the pipeline; [idle] and [error] are outside
    of it. *)
Definition stage_rank (a : Stage.t) : nat :=
  match a with
  | Stage.idle | Stage.error => 0
  | Stage.uploading => 1
  | Stage.processing => 2
  | Stage.converting => 3
  | Stage.completed => 4
  end.

(** * Properties *)

Lemma Stage_eqb_eq a b : Stage.eqb a b = true <-> a = b.
Proof. destruct a, b; simpl; split; intros H; try reflexivity; discriminate H. Qed.

(** ** The scenarios of the specification *)



Lemma step_settle s p k o :
  pending s !! p = Some k ->
  step (Settle p o) s = resume k o (set_pending (delete p (pending s)) s).
Proof. intros H. unfold step. rewrite H. reflexivity. Qed.

(** A check of the convert poll answered FAILURE, in every state: that one
    step writes the error status of the source, whose error text is not
    empty, clears the handle that [convertCheckInterval] holds at that
    moment, and leaves the download URL and button as they are. *)
Lemma convert_failure_writes_error s p convertTaskId :
  pending s !! p = Some (K_cstatus convertTaskId) ->
  exists s',
    step (Settle p (Resolved (StatusResponse "FAILURE"))) s = Some s'
    /\ uploadStatus s'
       = mkStatus Stage.error "轉換失敗" 0 (Some "轉換過程中發生錯誤")
    /\ "轉換過程中發生錯誤" <> EmptyString
    /\ timers s' = odelete (convertCheckInterval s) (timers s)
    /\ downloadUrl s' = downloadUrl s
    /\ showDownload s' = showDownload s.
Proof.
  intros Hp. rewrite (step_settle _ _ _ _ Hp). simpl.
  eexists; split; [reflexivity|].
  repeat split. discriminate.
Qed.

(** When [convertCheckInterval] holds the interval of the failing poll,
    that interval is no longer live. *)
Lemma convert_failure_of_held_poll s p t convertTaskId :
  pending s !! p = Some (K_cstatus convertTaskId) ->
  timers s !! t = Some (CB_convert convertTaskId) ->
  convertCheckInterval s = Some t ->
  downloadUrl s = EmptyString ->
  exists s',
    step (Settle p (Resolved (StatusResponse "FAILURE"))) s = Some s'
    /\ stage (uploadStatus s') = Stage.error
    /\ error (uploadStatus s') = Some "轉換過程中發生錯誤"
    /\ timers s' !! t = None
    /\ downloadUrl s' = EmptyString
    /\ showDownload s' = showDownload s.
Proof.
  intros Hp _ Ht Hurl.
  destruct (convert_failure_writes_error s p convertTaskId Hp)
    as (s' & Hstep & Hu & _ & Htm & Hurl' & Hsh).
  exists s'. split; [exact Hstep|].
  rewrite Hu, Htm, Ht, Hurl'. simpl.
  repeat split; try assumption. apply lookup_delete_eq.
Qed.

(** C8: the code at the failing run.  Two overlapping checks of the
    operation poll each started a convert poll; the handle of the first
    (interval 3, task-2) was overwritten in [convertCheckInterval] by the
    second (interval 4, task-3).  A check of interval 3 is answered
    FAILURE: the pipeline is in stage [error] with the non-empty error
    text and the download URL is still unset, but the interval cleared is
    interval 4; interval 3, the poll that observed FAILURE, is still live,
    fires again, and its next answer takes the pipeline out of stage
    [error]. *)
Theorem C8_failure_clears_another_poll :
  exists s s' s'',
    run to_two_convert_polls initial = Some s
    /\ pending s = {[ 9%nat := K_cstatus "task-2" ]}
    /\ timers s !! 3%nat = Some (CB_convert "task-2")
    /\ timers s !! 4%nat = Some (CB_convert "task-3")
    /\ convertCheckInterval s = Some 4%nat
    /\ step (Settle 9 (Resolved (StatusResponse "FAILURE"))) s = Some s'
    /\ uploadStatus s'
       = mkStatus Stage.error "轉換失敗" 0 (Some "轉換過程中發生錯誤")
    /\ downloadUrl s' = EmptyString
    /\ timers s' = {[ 3%nat := CB_convert "task-2" ]}
    /\ run (poll 3 10 (StatusResponse "PENDING")) s' = Some s''
    /\ uploadStatus s''
       = mkStatus Stage.converting
           ("轉換中... (狀態: " ++ "PENDING" ++ ")") 90 None.
Proof.
  eexists; eexists; eexists.
  split; [vm_compute; reflexivity|].
  split; [reflexivity|].
  split; [reflexivity|].
  split; [reflexivity|].
  split; [reflexivity|].
  split; [vm_compute; reflexivity|].
  split; [reflexivity|].
  split; [reflexivity|].
  split; [reflexivity|].
  split; [vm_compute; reflexivity|].
  reflexivity.
Qed.

(** C10.  When the convert poll is answered SUCCESS and the task result
    then carries no usable [gcs_download_path] (absent or empty), the
    pipeline is in stage [completed] with progress 100, the download URL is
    still empty and the download button is not shown.  With nothing else in
    flight, no event but a new file selection is possible any more: the
    button cannot appear for this run. *)
Theorem C10_completed_without_artifact
    (s : State) (p t : nat) (convertTaskId : string) (r : TaskResult) :
  pending s = {[ p := K_cstatus convertTaskId ]} ->
  timers s = {[ t := CB_convert convertTaskId ]} ->
  convertCheckInterval s = Some t ->
  downloadUrl s = EmptyString ->
  showDownload s = false ->
  truthy (gcs_download_path r) = false ->
  exists s1 s2,
    step (Settle p (Resolved (StatusResponse "SUCCESS"))) s = Some s1
    /\ pending s1 = {[ next_promise s := K_cresult convertTaskId ]}
    /\ step (Settle (next_promise s) (Resolved (ResultResponse (Some r)))) s1
       = Some s2
    /\ stage (uploadStatus s2) = Stage.completed
    /\ progress (uploadStatus s2) = 100
    /\ downloadUrl s2 = EmptyString
    /\ showDownload s2 = false
    /\ step ClickDownload s2 = None
    /\ (forall e, (forall f, e <> SelectFile f) -> step e s2 = None).
Proof.
  intros Hp Ht Hc Hurl Hshow Hr.
  destruct s as [u url sh rs ro rc tm pd nt np]; simpl in *; subst.
  eexists; eexists; split; [|split; [|split]].
  - unfold step; simpl. rewrite lookup_singleton_eq. simpl. reflexivity.
  - simpl. rewrite !delete_singleton_eq. reflexivity.
  - unfold step. simpl. rewrite lookup_insert_eq. simpl. rewrite Hr.
    reflexivity.
  - simpl.
    rewrite !delete_singleton_eq, delete_insert_eq, delete_empty.
    repeat split; try reflexivity.
    intros e He. destruct e as [f| | |t'|p' o']; simpl.
    + exfalso. exact (He f eq_refl).
    + reflexivity.
    + reflexivity.
    + rewrite ?delete_singleton_eq, lookup_empty. reflexivity.
    + rewrite ?delete_singleton_eq, ?delete_insert_eq, ?delete_empty, lookup_empty.
      reflexivity.
Qed.

Lemma C10_completed_without_artifact_witness :
  exists s1 s2,
    step (Settle 7 (Resolved (StatusResponse "SUCCESS")))
      (state_after to_convert_check) = Some s1
    /\ pending s1 = {[ next_promise (state_after to_convert_check)
                       := K_cresult "task-2" ]}
    /\ step (Settle (next_promise (state_after to_convert_check))
               (Resolved (ResultResponse (Some (mkResult None None))))) s1
       = Some s2
    /\ stage (uploadStatus s2) = Stage.completed
    /\ progress (uploadStatus s2) = 100
    /\ downloadUrl s2 = EmptyString
    /\ showDownload s2 = false
    /\ step ClickDownload s2 = None
    /\ (forall e, (forall f, e <> SelectFile f) -> step e s2 = None).
Proof.
  apply (C10_completed_without_artifact (state_after to_convert_check) 7 3
           "task-2" (mkResult None None)).
  - vm_compute. reflexivity.
  - vm_compute. reflexivity.
  - vm_compute. reflexivity.
  - vm_compute. reflexivity.
  - vm_compute. reflexivity.
  - reflexivity.
Defined.

(** C7 as stated fails: while the task poll observes PENDING, PENDING,
    SUCCESS the stage is [processing] before, at every step and after, so
    the stage never changes, and no stage of the component is the
    specification's AwaitingOperation. *)
Lemma C7_counterexample :
  stages (history task_poll_pps (state_after to_task_poll))
  = [ Stage.processing; Stage.processing; Stage.processing;
      Stage.processing; Stage.processing; Stage.processing ]
  /\ stage (uploadStatus (state_after to_task_poll)) = Stage.processing
  /\ stage_changes Stage.processing
       (stages (history task_poll_pps (state_after to_task_poll))) = 0%nat
  /\ stage_changes Stage.processing
       (stages (history task_poll_pps (state_after to_task_poll))) <> 1%nat
  /\ (forall a : Stage.t, spec_stage a <> SpecStage.AwaitingOperation).
Proof.
  split; [vm_compute; reflexivity|].
  split; [vm_compute; reflexivity|].
  split; [vm_compute; reflexivity|].
  split; [vm_compute; discriminate|].
  intros a; destruct a; discriminate.
Qed.

(** C7, amended.  When the task poll observes PENDING, PENDING, SUCCESS
    with no other request in flight, the stage is [processing] throughout
    (progress 65, 65, then 70); the status written on SUCCESS, after which
    the component waits for the operation, is entered exactly once; the
    task interval is then no longer live and exactly one task-result
    request is in flight.  The stage has six values, none of them the
    specification's AwaitingOperation. *)
Theorem C7_task_poll_pending_pending_success
    (s : State) (t : nat) (task_id file_key : string) :
  timers s !! t = Some (CB_status task_id file_key) ->
  statusCheckInterval s = Some t ->
  pending s = ∅ ->
  stage (uploadStatus s) = Stage.processing ->
  awaiting_operation (uploadStatus s) = false ->
  let p := next_promise s in
  let es := pending_pending_success t p in
  exists s',
    run es s = Some s'
    /\ stages (history es s) = repeat Stage.processing 6
    /\ progresses (history es s)
       = [ progress (uploadStatus s); 65; 65; 65; 65; 70 ]
    /\ entries awaiting_operation false (map uploadStatus (history es s))
       = 1%nat
    /\ timers s' !! t = None
    /\ pending s' = {[ S (S (S p)) := K_result task_id file_key ]}
    /\ operationCheckInterval s' = operationCheckInterval s
    /\ (forall a : Stage.t,
          In a Stage.all /\ spec_stage a <> SpecStage.AwaitingOperation).
Proof.
  intros Ht Hr Hp Hst Haw p es.
  destruct s as [u url sh rs ro rc tm pd nt np]; simpl in *; subst.
  subst p es. 
  unfold pending_pending_success, poll.
  repeat first [ rewrite Ht | rewrite lookup_insert_eq | rewrite delete_insert_eq
               | rewrite delete_empty | progress simpl ].
  rewrite Hst, Haw.
  eexists; split; [reflexivity|]. simpl.
  repeat split; try reflexivity.
  - apply lookup_delete_eq.
  - destruct a; simpl; tauto.
  - destruct a; discriminate.
Qed.

Lemma C7_task_poll_pending_pending_success_witness :
  exists s',
    run task_poll_pps (state_after to_task_poll) = Some s'
    /\ stages (history task_poll_pps (state_after to_task_poll))
       = repeat Stage.processing 6
    /\ progresses (history task_poll_pps (state_after to_task_poll))
       = [ 60; 65; 65; 65; 65; 70 ]
    /\ entries awaiting_operation false
         (map uploadStatus (history task_poll_pps (state_after to_task_poll)))
       = 1%nat
    /\ timers s' !! 1%nat = None
    /\ pending s' = {[ 6%nat := K_result "task-1" "uploads/bom.pdf" ]}
    /\ operationCheckInterval s' = None
    /\ (forall a : Stage.t,
          In a Stage.all /\ spec_stage a <> SpecStage.AwaitingOperation).
Proof.
  apply (C7_task_poll_pending_pending_success (state_after to_task_poll) 1
           "task-1" "uploads/bom.pdf").
  - vm_compute. reflexivity.
  - vm_compute. reflexivity.
  - vm_compute. reflexivity.
  - vm_compute. reflexivity.
  - vm_compute. reflexivity.
Defined.

(** ** Reset and cancellation *)

Lemma timers_clearIntervals s :
  timers (clearIntervals s)
  = odelete (convertCheckInterval s)
      (odelete (operationCheckInterval s)
         (odelete (statusCheckInterval s) (timers s))).
Proof.
  destruct s as [u url sh [a|] [b|] [c|] tm pd nt np]; reflexivity.
Qed.

Lemma current_clearIntervals r s : current r (clearIntervals s) = None.
Proof.
  destruct s as [u url sh [a|] [b|] [c|] tm pd nt np], r; reflexivity.
Qed.

Lemma pending_clearIntervals s : pending (clearIntervals s) = pending s.
Proof.
  destruct s as [u url sh [a|] [b|] [c|] tm pd nt np]; reflexivity.
Qed.

Lemma uploadStatus_clearIntervals s :
  uploadStatus (clearIntervals s) = uploadStatus s.
Proof.
  destruct s as [u url sh [a|] [b|] [c|] tm pd nt np]; reflexivity.
Qed.

Lemma lookup_odelete h (m : gmap nat TimerCb) t cb :
  odelete h m !! t = Some cb -> m !! t = Some cb /\ h <> Some t.
Proof.
  destruct h as [t'|]; simpl.
  - intros H. apply lookup_delete_Some in H as [Hne H]. split; [exact H|].
    intros [= ->]. apply Hne. reflexivity.
  - intros H. split; [exact H|discriminate].
Qed.

(** What [resetUpload] does, in every state: the status is exactly the
    idle one, the download URL and button are cleared, the three refs are
    null and the intervals they held are no longer live; requests in
    flight stay in flight. *)
Lemma resetUpload_spec s :
  uploadStatus (resetUpload s) = mkStatus Stage.idle EmptyString 0 None
  /\ downloadUrl (resetUpload s) = EmptyString
  /\ showDownload (resetUpload s) = false
  /\ (forall r, current r (resetUpload s) = None)
  /\ (forall r t, current r s = Some t -> timers (resetUpload s) !! t = None)
  /\ (forall t cb, timers (resetUpload s) !! t = Some cb ->
        timers s !! t = Some cb /\ forall r, current r s <> Some t)
  /\ pending (resetUpload s) = pending s.
Proof.
  repeat split.
  - intros r. unfold resetUpload. destruct r; simpl.
    + apply (current_clearIntervals StatusRef).
    + apply (current_clearIntervals OperationRef).
    + apply (current_clearIntervals ConvertRef).
  - intros r t Hr. unfold resetUpload; simpl. rewrite timers_clearIntervals.
    destruct (odelete _ _ !! t) as [cb|] eqn:E; [|reflexivity].
    apply lookup_odelete in E as [E Hc].
    apply lookup_odelete in E as [E Ho].
    apply lookup_odelete in E as [E Hs].
    destruct r; simpl in Hr; congruence.
  - unfold resetUpload in H; simpl in H. rewrite timers_clearIntervals in H.
    apply lookup_odelete in H as [H _].
    apply lookup_odelete in H as [H _].
    apply lookup_odelete in H as [H _]. exact H.
  - intros r. unfold resetUpload in H; simpl in H.
    rewrite timers_clearIntervals in H.
    apply lookup_odelete in H as [H Hc].
    apply lookup_odelete in H as [H Ho].
    apply lookup_odelete in H as [H Hs].
    destruct r; simpl; assumption.
  - unfold resetUpload; simpl. apply pending_clearIntervals.
Qed.

(** When every live interval is held by one of the refs, none is live
    after [resetUpload]. *)
Lemma resetUpload_no_timer s :
  (forall t cb, timers s !! t = Some cb -> exists r, current r s = Some t) ->
  timers (resetUpload s) = ∅.
Proof.
  intros Hheld. apply map_eq. intros t. rewrite lookup_empty.
  destruct (timers (resetUpload s) !! t) as [cb|] eqn:E; [|reflexivity].
  destruct (resetUpload_spec s) as (_ & _ & _ & _ & _ & Hlive & _).
  destruct (Hlive t cb E) as [Ht Hno].
  destruct (Hheld t cb Ht) as [r Hr]. exfalso. exact (Hno r Hr).
Qed.

(** C1 as stated fails.  Two checks of the task poll are in flight; the
    first is answered FAILURE and the user resets: the status is the idle
    one, no interval is live, all refs are null, and the second check is
    still in flight.  When it is answered, its callback runs and puts the
    pipeline in stage [error]: an outcome applied after the cancellation. *)
Lemma C1_counterexample :
  exists s_cancel s_late,
    run cancelled_in_flight initial = Some s_cancel
    /\ uploadStatus s_cancel = mkStatus Stage.idle EmptyString 0 None
    /\ timers s_cancel = ∅
    /\ (forall r, current r s_cancel = None)
    /\ pending s_cancel = {[ 4%nat := K_status "task-1" "uploads/bom.pdf" ]}
    /\ step (Settle 4 (Resolved (StatusResponse "FAILURE"))) s_cancel
       = Some s_late
    /\ run cancel_then_late_answer initial = Some s_late
    /\ uploadStatus s_late
       = mkStatus Stage.error "處理失敗" 0 (Some "任務執行失敗").
Proof.
  eexists; eexists.
  split; [vm_compute; reflexivity|].
  split; [reflexivity|].
  split; [reflexivity|].
  split; [intros r; destruct r; reflexivity|].
  split; [reflexivity|].
  split; [vm_compute; reflexivity|].
  split; [vm_compute; reflexivity|].
  reflexivity.
Qed.

(** C1, amended.  Cancelling by reset nulls the three refs and stops the
    intervals they held, so those fire no more; but a check that is in
    flight is not discarded: its request is still awaited after the reset,
    and when the answer arrives the callback runs and writes a status (the
    stage is no longer [idle]). *)
Theorem C1_cancel_keeps_check_in_flight
    (s : State) (p : nat) (k : Cont) (r : Response) :
  pending s !! p = Some k ->
  is_check k = true ->
  answers k r = true ->
  (forall rf, current rf (resetUpload s) = None)
  /\ (forall rf t, current rf s = Some t ->
        step (Tick t) (resetUpload s) = None)
  /\ pending (resetUpload s) !! p = Some k
  /\ exists s',
       step (Settle p (Resolved r)) (resetUpload s) = Some s'
       /\ stage (uploadStatus s') <> Stage.idle
       /\ uploadStatus s' <> uploadStatus (resetUpload s).
Proof.
  intros Hp Hk Hr.
  destruct (resetUpload_spec s) as (Hu & _ & _ & Hrefs & Hdead & _ & Hpend).
  assert (Hp' : pending (resetUpload s) !! p = Some k) by (rewrite Hpend; exact Hp).
  split; [exact Hrefs|].
  split.
  { intros rf t Hrf. unfold step. rewrite (Hdead rf t Hrf). reflexivity. }
  split; [exact Hp'|].
  rewrite (step_settle _ _ _ _ Hp'), Hu.
  destruct k; try discriminate Hk; destruct r; try discriminate Hr; simpl.
  - destruct (String.eqb status "SUCCESS");
      [|destruct (String.eqb status "FAILURE")];
      eexists; (split; [reflexivity|]); simpl; split; discriminate.
  - destruct done; eexists; (split; [reflexivity|]); simpl; split; discriminate.
  - destruct (String.eqb status "SUCCESS");
      [|destruct (String.eqb status "FAILURE")];
      eexists; (split; [reflexivity|]); simpl; split; discriminate.
Qed.

Lemma C1_cancel_keeps_check_in_flight_witness :
  let s := state_after (two_checks_in_flight
                        ++ [ Settle 3 (Resolved (StatusResponse "FAILURE")) ]) in
  (forall rf, current rf (resetUpload s) = None)
  /\ (forall rf t, current rf s = Some t ->
        step (Tick t) (resetUpload s) = None)
  /\ pending (resetUpload s) !! 4%nat
     = Some (K_status "task-1" "uploads/bom.pdf")
  /\ exists s',
       step (Settle 4 (Resolved (StatusResponse "PENDING"))) (resetUpload s)
       = Some s'
       /\ stage (uploadStatus s') <> Stage.idle
       /\ uploadStatus s' <> uploadStatus (resetUpload s).
Proof.
  intros s.
  apply (C1_cancel_keeps_check_in_flight s 4
           (K_status "task-1" "uploads/bom.pdf") (StatusResponse "PENDING")).
  - vm_compute. reflexivity.
  - reflexivity.
  - reflexivity.
Defined.

(** C2: the code at the failing run.  Two overlapping checks of the task
    poll each started an operation poll; the handle of the first
    (interval 2) was overwritten in [operationCheckInterval] by the second
    (interval 3).  Reset, from stage [error], gives exactly the idle
    status, nulls the refs and clears the download URL, but interval 2 is
    still live: it fires after the reset and its check moves the pipeline
    to stage [processing]. *)
Theorem C2_reset_misses_orphaned_interval :
  exists s s' s'',
    run to_orphaned_interval initial = Some s
    /\ stage (uploadStatus s) = Stage.error
    /\ step ClickReset s = Some s'
    /\ uploadStatus s' = mkStatus Stage.idle EmptyString 0 None
    /\ downloadUrl s' = EmptyString
    /\ showDownload s' = false
    /\ (forall r, current r s' = None)
    /\ timers s' = {[ 2%nat := CB_operation "operations/42" "uploads/bom.pdf" ]}
    /\ run [ Tick 2; Settle 8 (Resolved (OperationResponse false)) ] s'
       = Some s''
    /\ uploadStatus s'' = mkStatus Stage.processing "作業處理中，請稍候..." 75 None.
Proof.
  eexists; eexists; eexists.
  split; [vm_compute; reflexivity|].
  split; [reflexivity|].
  split; [vm_compute; reflexivity|].
  split; [reflexivity|].
  split; [reflexivity|].
  split; [reflexivity|].
  split; [intros r; destruct r; reflexivity|].
  split; [reflexivity|].
  split; [vm_compute; reflexivity|].
  reflexivity.
Qed.

(** ** Failure of a check *)

(** The task-status callback catches a rejected check: the interval held
    in [statusCheckInterval] is cleared and the pipeline is in stage
    [error] with the message of the rejection. *)
Lemma status_rejection_is_failure s p t task_id file_key msg :
  pending s !! p = Some (K_status task_id file_key) ->
  statusCheckInterval s = Some t ->
  exists s',
    step (Settle p (Rejected msg)) s = Some s'
    /\ uploadStatus s' = mkStatus Stage.error "檢查任務狀態失敗" 0 (Some msg)
    /\ timers s' !! t = None.
Proof.
  intros Hp Ht. rewrite (step_settle _ _ _ _ Hp). simpl.
  eexists; split; [reflexivity|]. simpl. rewrite Ht. simpl.
  split; [reflexivity|apply lookup_delete_eq].
Qed.

(** So does the operation-status callback. *)
Lemma operation_rejection_is_failure s p t operationName file_key msg :
  pending s !! p = Some (K_operation operationName file_key) ->
  operationCheckInterval s = Some t ->
  exists s',
    step (Settle p (Rejected msg)) s = Some s'
    /\ uploadStatus s' = mkStatus Stage.error "查詢作業狀態失敗" 0 (Some msg)
    /\ timers s' !! t = None.
Proof.
  intros Hp Ht. rewrite (step_settle _ _ _ _ Hp). simpl.
  eexists; split; [reflexivity|]. simpl. rewrite Ht. simpl.
  split; [reflexivity|apply lookup_delete_eq].
Qed.

(** The convert-status callback has no [try]: a rejected check changes
    nothing but the set of requests in flight. *)
Lemma convert_rejection_changes_nothing s p convertTaskId msg :
  pending s !! p = Some (K_cstatus convertTaskId) ->
  step (Settle p (Rejected msg)) s
  = Some (set_pending (delete p (pending s)) s).
Proof. intros Hp. rewrite (step_settle _ _ _ _ Hp). reflexivity. Qed.

(** C3: the code at the failing input.  The first check of the convert
    poll is rejected: the status is unchanged (stage [converting], no
    error), interval 3 is still live and still held by
    [convertCheckInterval], and it can fire again. *)
Theorem C3_convert_check_rejection_unhandled :
  exists s s',
    run to_convert_check initial = Some s
    /\ step (Settle 7 (Rejected "Network Error")) s = Some s'
    /\ uploadStatus s' = uploadStatus s
    /\ stage (uploadStatus s') = Stage.converting
    /\ error (uploadStatus s') = None
    /\ timers s' = {[ 3%nat := CB_convert "task-2" ]}
    /\ convertCheckInterval s' = Some 3%nat
    /\ step (Tick 3) s' = Some (fire (CB_convert "task-2") s').
Proof.
  eexists; eexists.
  split; [vm_compute; reflexivity|].
  split; [vm_compute; reflexivity|].
  repeat split; reflexivity.
Qed.

(** ** A new upload over a running one *)

(** C4 as stated fails.  With the task poll of the first upload live
    (stage [processing]), selecting a second file issues the signed-URL
    request of the new upload while interval 1 is still live and still held
    by [statusCheckInterval]; once the new upload reaches its own task
    poll, the polls of both uploads are live together. *)
Lemma C4_counterexample :
  exists s s' s'',
    run to_task_poll initial = Some s
    /\ stage (uploadStatus s) = Stage.processing
    /\ timers s = {[ 1%nat := CB_status "task-1" "uploads/bom.pdf" ]}
    /\ step (SelectFile (Some pdf)) s = Some s'
    /\ pending s' = {[ 3%nat := K_upload pdf ]}
    /\ timers s' = {[ 1%nat := CB_status "task-1" "uploads/bom.pdf" ]}
    /\ statusCheckInterval s' = Some 1%nat
    /\ run second_upload initial = Some s''
    /\ timers s'' !! 1%nat = Some (CB_status "task-1" "uploads/bom.pdf")
    /\ timers s'' !! 2%nat = Some (CB_status "task-9" "uploads/bom2.pdf")
    /\ statusCheckInterval s'' = Some 2%nat.
Proof.
  eexists; eexists; eexists.
  split; [vm_compute; reflexivity|].
  split; [reflexivity|].
  split; [reflexivity|].
  split; [vm_compute; reflexivity|].
  split; [reflexivity|].
  split; [reflexivity|].
  split; [reflexivity|].
  split; [vm_compute; reflexivity|].
  repeat split; reflexivity.
Qed.

(** C4, amended.  Selecting a PDF starts the new upload at once, whatever
    the stage: the status becomes ([uploading], 10) and the signed-URL
    request is issued, and nothing is cancelled: the live intervals and
    the three refs are as before. *)
Theorem C4_new_upload_cancels_nothing (s : State) (file : File) :
  f_type file = "application/pdf" ->
  exists s',
    step (SelectFile (Some file)) s = Some s'
    /\ uploadStatus s' = mkStatus Stage.uploading "正在準備上傳..." 10 None
    /\ pending s' = <[ next_promise s := K_upload file ]> (pending s)
    /\ timers s' = timers s
    /\ (forall r, current r s' = current r s).
Proof.
  intros Hpdf. destruct file as [nm ty]; simpl in Hpdf; subst ty.
  eexists; split; [reflexivity|].
  split; [reflexivity|]. split; [reflexivity|]. split; [reflexivity|].
  intros r; destruct r; reflexivity.
Qed.

Lemma C4_new_upload_cancels_nothing_witness :
  exists s',
    step (SelectFile (Some pdf)) (state_after to_task_poll) = Some s'
    /\ uploadStatus s' = mkStatus Stage.uploading "正在準備上傳..." 10 None
    /\ pending s'
       = <[ next_promise (state_after to_task_poll) := K_upload pdf ]>
           (pending (state_after to_task_poll))
    /\ timers s' = timers (state_after to_task_poll)
    /\ (forall r, current r s' = current r (state_after to_task_poll)).
Proof.
  apply (C4_new_upload_cancels_nothing (state_after to_task_poll) pdf).
  reflexivity.
Defined.

(** ** The terminal stages *)

(** C5 as stated fails.  The happy path ends in stage [completed]; the
    download is requested and the request is rejected: the pipeline is in
    stage [error], and no reset took place. *)
Lemma C5_counterexample :
  exists s s',
    run to_completed initial = Some s
    /\ stage (uploadStatus s) = Stage.completed
    /\ run download_fails s = Some s'
    /\ uploadStatus s' = mkStatus Stage.error "下載失敗" 0 (Some "Network Error")
    /\ ~ In ClickReset (to_completed ++ download_fails)%list.
Proof.
  eexists; eexists.
  split; [vm_compute; reflexivity|].
  split; [reflexivity|].
  split; [vm_compute; reflexivity|].
  split; [reflexivity|].
  cbv. intros H.
  repeat match goal with
         | H : _ \/ _ |- _ => destruct H as [H|H]; [discriminate H|]
         end.
  exact H.
Qed.

(** C5, amended.  In stage [completed] or [error], with no interval live
    and nothing in flight but download requests: reset gives exactly the
    idle status; a file selection starts a new upload (stage [uploading])
    or, for anything but a PDF, sets stage [error]; a click on download or
    the answer to a download request leaves the status as it is or, on
    failure, sets stage [error]; nothing else can happen. *)
Theorem C5_leaving_a_terminal_stage (s s' : State) (e : Event) :
  terminal (stage (uploadStatus s)) = true ->
  timers s = ∅ ->
  (forall p k, pending s !! p = Some k -> k = K_download) ->
  step e s = Some s' ->
  match e with
  | ClickReset => uploadStatus s' = mkStatus Stage.idle EmptyString 0 None
  | SelectFile file =>
      stage (uploadStatus s')
      = match file with
        | Some f => if String.eqb (f_type f) "application/pdf"
                    then Stage.uploading else Stage.error
        | None => Stage.error
        end
  | ClickDownload | Settle _ _ =>
      uploadStatus s' = uploadStatus s
      \/ stage (uploadStatus s') = Stage.error
  | Tick _ => False
  end.
Proof.
  intros Hterm Htm Hpd Hstep.
  destruct e as [file| | |t|p o]; simpl in Hstep.
  - injection Hstep as <-. destruct file as [f|]; simpl; [|reflexivity].
    destruct (String.eqb (f_type f) "application/pdf"); reflexivity.
  - destruct (download_shown s); [|discriminate].
    injection Hstep as <-. unfold handleDownload.
    destruct (String.eqb (downloadUrl s) EmptyString); [right|left]; reflexivity.
  - destruct (reset_shown s); [|discriminate].
    injection Hstep as <-. apply resetUpload_spec.
  - rewrite Htm, lookup_empty in Hstep. discriminate.
  - destruct (pending s !! p) as [k|] eqn:Hk; [|discriminate].
    rewrite (Hpd p k Hk) in Hstep.
    destruct o as [r|msg]; simpl in Hstep.
    + destruct r; try discriminate. injection Hstep as <-. left; reflexivity.
    + injection Hstep as <-. right; reflexivity.
Qed.

Lemma C5_leaving_a_terminal_stage_witness :
  uploadStatus (resetUpload (state_after to_completed))
  = mkStatus Stage.idle EmptyString 0 None.
Proof.
  apply (C5_leaving_a_terminal_stage (state_after to_completed)
           (resetUpload (state_after to_completed)) ClickReset).
  - reflexivity.
  - vm_compute. reflexivity.
  - intros p k H. vm_compute in H. discriminate H.
  - vm_compute. reflexivity.
Defined.

(** ** Progress *)

Ltac case_branches H :=
  repeat match type of H with
         | context [if ?b then _ else _] => destruct b eqn:?
         | context [match ?x with _ => _ end] => destruct x eqn:?
         end.

Lemma status_ok_literal stg msg prog err :
  0 <= prog <= 100 ->
  (stg = Stage.error -> prog = 0) -> (stg = Stage.idle -> prog = 0) ->
  status_ok (mkStatus stg msg prog err).
Proof. intros H1 H2 H3. repeat split; simpl; tauto. Qed.

(** Every step writes one of the literal statuses of the source or leaves
    the status as it is. *)
Lemma status_ok_step e s s' :
  status_ok (uploadStatus s) -> step e s = Some s' ->
  status_ok (uploadStatus s').
Proof.
  intros Hok Hstep.
  destruct e as [file| | |t|p o]; simpl in Hstep.
  - injection Hstep as <-. unfold handleFileSelect, handleFileUpload.
    destruct file as [f|]; [destruct (String.eqb _ _)|]; simpl;
      apply status_ok_literal; (lia || discriminate || reflexivity).
  - destruct (download_shown s); [|discriminate]. injection Hstep as <-.
    unfold handleDownload. destruct (String.eqb _ _); simpl; [|exact Hok].
    apply status_ok_literal; (lia || discriminate || reflexivity).
  - destruct (reset_shown s); [|discriminate]. injection Hstep as <-.
    simpl. apply status_ok_literal; (lia || discriminate || reflexivity).
  - destruct (timers s !! t) as [cb|]; [|discriminate].
    injection Hstep as <-. destruct cb; exact Hok.
  - destruct (pending s !! p) as [k|]; [|discriminate].
    destruct k, o as [r|msg]; try destruct r; simpl in Hstep;
      try discriminate Hstep; case_branches Hstep;
      injection Hstep as <-; unfold catch_upload, catch_status, catch_operation;
      rewrite ?uploadStatus_clearIntervals; simpl; try exact Hok;
      apply status_ok_literal; (lia || discriminate || reflexivity).
Qed.

Lemma reachable_status_ok s : reachable s -> status_ok (uploadStatus s).
Proof.
  induction 1 as [|e s s' _ IH Hstep].
  - apply status_ok_literal; (lia || discriminate || reflexivity).
  - exact (status_ok_step e s s' IH Hstep).
Qed.

Lemma sequential_reachable s : sequential s -> reachable s.
Proof.
  induction 1 as [|e s s' _ IH _ Hstep]; [constructor|].
  exact (reachable_step e s s' IH Hstep).
Qed.

Arguments clearIntervals : simpl never.

Lemma odelete_empty h : odelete h ∅ = ∅.
Proof. destruct h; simpl; [apply delete_empty|reflexivity]. Qed.

Lemma singleton_not_empty {A} (i : nat) (x : A) :
  ({[ i := x ]} : gmap nat A) <> ∅.
Proof.
  intros H. assert (E : ({[ i := x ]} : gmap nat A) !! i = Some x)
    by apply lookup_singleton_eq.
  rewrite H, lookup_empty in E. discriminate E.
Qed.

Lemma floor_cont_nonneg k : 0 <= floor_cont k <= 100.
Proof. destruct k; simpl; lia. Qed.

Lemma floor_timer_nonneg cb : 0 <= floor_timer cb <= 100.
Proof. destruct cb; simpl; lia. Qed.

Ltac use_eqs :=
  repeat match goal with
         | H : timers ?s = _ |- context [timers ?s] => rewrite H
         | H : pending ?s = _ |- context [pending ?s] => rewrite H
         | H : statusCheckInterval ?s = _
           |- context [statusCheckInterval ?s] => rewrite H
         | H : operationCheckInterval ?s = _
           |- context [operationCheckInterval ?s] => rewrite H
         | H : convertCheckInterval ?s = _
           |- context [convertCheckInterval ?s] => rewrite H
         end.

Ltac norm_state :=
  unfold catch_upload, catch_status, catch_operation;
  rewrite ?timers_clearIntervals, ?pending_clearIntervals,
    ?uploadStatus_clearIntervals;
  simpl; use_eqs; simpl;
  rewrite ?odelete_empty, ?delete_singleton_eq, ?delete_empty, ?insert_empty.

Ltac bound :=
  simpl;
  match goal with
  | |- _ <= _ =>
      repeat match goal with
             | k : Cont |- _ => pose proof (floor_cont_nonneg k); clear k
             | cb : TimerCb |- _ => pose proof (floor_timer_nonneg cb); clear cb
             end; simpl in *; lia
  end.

Ltac solve_shape :=
  first
    [ solve [ apply shape_quiet; norm_state; reflexivity ]
    | solve [ eapply shape_request; norm_state;
              [ reflexivity | reflexivity | bound ] ]
    | solve [ eapply shape_waiting; norm_state;
              [ reflexivity | reflexivity || assumption | reflexivity | bound ] ]
    | solve [ eapply shape_checking; norm_state;
              [ reflexivity | reflexivity || assumption | reflexivity
              | reflexivity | bound | bound ] ] ].

Lemma shape_settle s p o s' :
  status_ok (uploadStatus s) -> shape s ->
  step (Settle p o) s = Some s' -> shape s'.
Proof.
  intros Hok Hsh Hstep. unfold step in Hstep.
  destruct Hok as [Hrange _].
  destruct Hsh as [Htm Hpd | p0 k0 Htm Hpd Hfl | t cb Htm Href Hpd Hfl
                  | t cb p0 k0 Htm Href Hpd Hck Hft Hfk].
  - rewrite Hpd, lookup_empty in Hstep. discriminate.
  - rewrite Hpd in Hstep.
    destruct (decide (p0 = p)) as [->|Hne];
      [ rewrite lookup_singleton_eq in Hstep
      | rewrite lookup_singleton_ne in Hstep by exact Hne; discriminate ].
    destruct k0, o as [r|msg]; try destruct r; simpl in Hstep;
      try discriminate Hstep; case_branches Hstep;
      injection Hstep as <-; solve_shape.
  - rewrite Hpd, lookup_empty in Hstep. discriminate.
  - rewrite Hpd in Hstep.
    destruct (decide (p0 = p)) as [->|Hne];
      [ rewrite lookup_singleton_eq in Hstep
      | rewrite lookup_singleton_ne in Hstep by exact Hne; discriminate ].
    destruct cb, k0; try discriminate Hck; simpl in Href;
      destruct o as [r|msg]; try destruct r; simpl in Hstep;
      try discriminate Hstep; case_branches Hstep;
      injection Hstep as <-; solve_shape.
Qed.

Lemma shape_held s t cb :
  shape s -> timers s !! t = Some cb -> exists r, current r s = Some t.
Proof.
  intros Hsh Ht.
  destruct Hsh as [Htm Hpd | p0 k0 Htm Hpd Hfl | t0 cb0 Htm Href Hpd Hfl
                  | t0 cb0 p0 k0 Htm Href Hpd Hck Hft Hfk];
    rewrite Htm in Ht;
    try (rewrite lookup_empty in Ht; discriminate Ht);
    apply lookup_singleton_Some in Ht as [<- _]; eauto.
Qed.

Lemma shape_reset s : shape s -> shape (resetUpload s).
Proof.
  intros Hsh.
  assert (Htm' : timers (resetUpload s) = ∅).
  { apply resetUpload_no_timer. intros t cb. apply shape_held. exact Hsh. }
  destruct (resetUpload_spec s) as (Hu & _ & _ & _ & _ & _ & Hpd').
  destruct Hsh as [Htm Hpd | p0 k0 Htm Hpd Hfl | t0 cb0 Htm Href Hpd Hfl
                  | t0 cb0 p0 k0 Htm Href Hpd Hck Hft Hfk].
  - apply shape_quiet; [exact Htm'|]. rewrite Hpd'. exact Hpd.
  - apply (shape_request _ p0 k0); [exact Htm'| |].
    + rewrite Hpd'. exact Hpd.
    + rewrite Hu. simpl. apply floor_cont_nonneg.
  - apply shape_quiet; [exact Htm'|]. rewrite Hpd'. exact Hpd.
  - apply (shape_request _ p0 k0); [exact Htm'| |].
    + rewrite Hpd'. exact Hpd.
    + rewrite Hu. simpl. apply floor_cont_nonneg.
Qed.

Lemma shape_step e s s' :
  status_ok (uploadStatus s) -> shape s -> in_order e s ->
  step e s = Some s' -> shape s'.
Proof.
  intros Hok Hsh Hord Hstep.
  destruct e as [file| | |t|p o].
  - (* a file is selected: nothing is going on *)
    destruct Hord as [Htm Hpd]. simpl in Hstep. injection Hstep as <-.
    unfold handleFileSelect, handleFileUpload.
    destruct file as [f|]; [destruct (String.eqb _ _)|]; solve_shape.
  - (* download is clicked: no request is in flight *)
    simpl in Hord, Hstep. destruct (download_shown s); [|discriminate].
    injection Hstep as <-. unfold handleDownload.
    destruct Hok as [Hrange _].
    destruct Hsh as [Htm Hpd | p0 k0 Htm Hpd Hfl | t0 cb0 Htm Href Hpd Hfl
                    | t0 cb0 p0 k0 Htm Href Hpd Hck Hft Hfk];
      try (rewrite Hord in Hpd; symmetry in Hpd;
           apply singleton_not_empty in Hpd; contradiction);
      destruct (String.eqb _ _); try solve_shape.
    destruct cb0; simpl in Href; solve_shape.
  - simpl in Hstep. destruct (reset_shown s); [|discriminate].
    injection Hstep as <-. apply shape_reset. exact Hsh.
  - (* an interval fires: no request is in flight *)
    simpl in Hord, Hstep.
    destruct Hsh as [Htm Hpd | p0 k0 Htm Hpd Hfl | t0 cb0 Htm Href Hpd Hfl
                    | t0 cb0 p0 k0 Htm Href Hpd Hck Hft Hfk];
      try (rewrite Hord in Hpd; symmetry in Hpd;
           apply singleton_not_empty in Hpd; contradiction).
    + rewrite Htm, lookup_empty in Hstep. discriminate.
    + rewrite Htm in Hstep.
      destruct (decide (t0 = t)) as [->|Hne];
        [ rewrite lookup_singleton_eq in Hstep
        | rewrite lookup_singleton_ne in Hstep by exact Hne; discriminate ].
      injection Hstep as <-.
      destruct cb0; simpl in Href; solve_shape.
  - exact (shape_settle s p o s' Hok Hsh Hstep).
Qed.

Lemma sequential_shape s : sequential s -> shape s.
Proof.
  induction 1 as [|e s s' Hseq IH Hord Hstep].
  - apply shape_quiet; reflexivity.
  - apply (shape_step e s s'); try assumption.
    apply reachable_status_ok, sequential_reachable, Hseq.
Qed.

Lemma sequential_run es : forall s s',
  sequential s -> run_in_order es s -> run es s = Some s' -> sequential s'.
Proof.
  induction es as [|e es IH]; intros s s' Hseq Hord Hrun; simpl in *.
  - injection Hrun as <-. exact Hseq.
  - destruct Hord as [He Hrest].
    destruct (step e s) as [s1|] eqn:Hstep; [|contradiction].
    apply (IH s1 s'); try assumption.
    exact (sequential_step e s s1 Hseq He Hstep).
Qed.

Lemma shape_floor s p k :
  shape s -> pending s !! p = Some k ->
  progress (uploadStatus s) <= floor_cont k.
Proof.
  intros Hsh Hp.
  destruct Hsh as [Htm Hpd | p0 k0 Htm Hpd Hfl | t0 cb0 Htm Href Hpd Hfl
                  | t0 cb0 p0 k0 Htm Href Hpd Hck Hft Hfk];
    rewrite Hpd in Hp;
    try (rewrite lookup_empty in Hp; discriminate Hp);
    apply lookup_singleton_Some in Hp as [_ <-]; assumption.
Qed.

(** The answer to a request writes at least the floor of its
    continuation, unless it writes the error status. *)
Lemma settle_progress s p k o s' :
  pending s !! p = Some k ->
  progress (uploadStatus s) <= floor_cont k ->
  step (Settle p o) s = Some s' ->
  stage (uploadStatus s') = Stage.error
  \/ progress (uploadStatus s) <= progress (uploadStatus s').
Proof.
  intros Hp Hfl Hstep. rewrite (step_settle _ _ _ _ Hp) in Hstep.
  destruct k, o as [r|msg]; try destruct r; simpl in Hstep;
    try discriminate Hstep; case_branches Hstep; injection Hstep as <-;
    unfold catch_upload, catch_status, catch_operation;
    rewrite ?uploadStatus_clearIntervals; simpl in *;
    first [ left; reflexivity | right; lia ].
Qed.

(** In a run in which one thing happens at a time, every live interval
    is held by its ref, so reset leaves none. *)
Lemma reset_in_sequential_runs s s' :
  sequential s -> step ClickReset s = Some s' ->
  timers s' = ∅
  /\ uploadStatus s' = mkStatus Stage.idle EmptyString 0 None
  /\ downloadUrl s' = EmptyString
  /\ (forall r, current r s' = None).
Proof.
  intros Hseq Hstep. simpl in Hstep.
  destruct (reset_shown s); [|discriminate]. injection Hstep as <-.
  destruct (resetUpload_spec s) as (Hu & Hurl & _ & Hrefs & _).
  split; [|split; [exact Hu|split; [exact Hurl|exact Hrefs]]].
  apply resetUpload_no_timer. intros t cb.
  apply shape_held, sequential_shape, Hseq.
Qed.

(** C6 as stated fails, in two ways.  By design, every failure writes
    progress 0 together with stage [error]: the task poll answered FAILURE
    takes the progress from 60 to 0 with no reset.  And when two checks
    of the task poll are in flight, the late answer to the second writes
    70 over the 75 the operation poll has reported: the progress
    decreases while the stage is [processing] before and after. *)
Lemma C6_counterexample :
  exists s1 s2 s3 s4,
    run task_check_in_flight initial = Some s1
    /\ step (Settle 3 (Resolved (StatusResponse "FAILURE"))) s1 = Some s2
    /\ progress (uploadStatus s1) = 60
    /\ uploadStatus s2 = mkStatus Stage.error "處理失敗" 0 (Some "任務執行失敗")
    /\ run operation_progress_reported initial = Some s3
    /\ step (Settle 4 (Resolved (StatusResponse "SUCCESS"))) s3 = Some s4
    /\ stage (uploadStatus s3) = Stage.processing
    /\ progress (uploadStatus s3) = 75
    /\ stage (uploadStatus s4) = Stage.processing
    /\ progress (uploadStatus s4) = 70.
Proof.
  eexists; eexists; eexists; eexists.
  split; [vm_compute; reflexivity|].
  split; [vm_compute; reflexivity|].
  split; [reflexivity|].
  split; [reflexivity|].
  split; [vm_compute; reflexivity|].
  split; [vm_compute; reflexivity|].
  repeat split; reflexivity.
Qed.

(** C6, amended.  After every step of every run the progress is an
    integer between 0 and 100, and it is 0 in stage [error] and in stage
    [idle]: each failure writes 0 together with stage [error], and reset
    writes exactly the idle status.  In a run in which one thing happens at
    a time (each request is answered before the next interval fires or the
    next download click, and a file is selected only when nothing is going
    on), the progress is lower than before the step only if the step is a
    reset, the start of a new upload (which writes 10), or a step into
    stage [error]. *)
Theorem C6_progress_of_a_step (s s' : State) (e : Event) :
  reachable s -> step e s = Some s' ->
  0 <= progress (uploadStatus s') <= 100
  /\ (stage (uploadStatus s') = Stage.error -> progress (uploadStatus s') = 0)
  /\ (stage (uploadStatus s') = Stage.idle -> progress (uploadStatus s') = 0)
  /\ (e = ClickReset ->
      uploadStatus s' = mkStatus Stage.idle EmptyString 0 None)
  /\ (sequential s -> in_order e s ->
      progress (uploadStatus s') < progress (uploadStatus s) ->
      e = ClickReset
      \/ (exists file, e = SelectFile (Some file)
                       /\ progress (uploadStatus s') = 10)
      \/ stage (uploadStatus s') = Stage.error).
Proof.
  intros Hreach Hstep.
  pose proof (reachable_status_ok s Hreach) as Hok.
  pose proof (status_ok_step e s s' Hok Hstep) as (Hrange & Herr & Hidle).
  split; [exact Hrange|]. split; [exact Herr|]. split; [exact Hidle|].
  split.
  - intros ->. simpl in Hstep. destruct (reset_shown s); [|discriminate].
    injection Hstep as <-. apply resetUpload_spec.
  - intros Hseq Hord Hlt.
    pose proof (sequential_shape s Hseq) as Hsh.
    destruct e as [file| | |t|p o].
    + simpl in Hstep. injection Hstep as <-.
      unfold handleFileSelect, handleFileUpload in *.
      destruct file as [f|]; [destruct (String.eqb _ _)|]; simpl in *.
      * right; left. exists f. split; reflexivity.
      * right; right; reflexivity.
      * right; right; reflexivity.
    + simpl in Hstep. destruct (download_shown s); [|discriminate].
      injection Hstep as <-. unfold handleDownload in *.
      destruct (String.eqb _ _); simpl in *; [right; right; reflexivity|lia].
    + left; reflexivity.
    + simpl in Hstep. destruct (timers s !! t) as [cb|]; [|discriminate].
      injection Hstep as <-. destruct cb; simpl in Hlt; lia.
    + right; right.
      destruct (pending s !! p) as [k|] eqn:Hp;
        [|simpl in Hstep; rewrite Hp in Hstep; discriminate].
      destruct (settle_progress s p k o s' Hp (shape_floor s p k Hsh Hp) Hstep)
        as [He|Hle]; [exact He|lia].
Qed.

Lemma C6_progress_of_a_step_witness :
  let e := Settle 3 (Resolved (StatusResponse "PENDING")) in
  let s := state_after task_check_in_flight in
  let s' := state_after (task_check_in_flight ++ [ e ]) in
  0 <= progress (uploadStatus s') <= 100
  /\ (stage (uploadStatus s') = Stage.error -> progress (uploadStatus s') = 0)
  /\ (stage (uploadStatus s') = Stage.idle -> progress (uploadStatus s') = 0)
  /\ (progress (uploadStatus s') < progress (uploadStatus s) ->
      e = ClickReset
      \/ (exists file, e = SelectFile (Some file)
                       /\ progress (uploadStatus s') = 10)
      \/ stage (uploadStatus s') = Stage.error).
Proof.
  intros e s s'.
  assert (Hseq : sequential s).
  { apply (sequential_run task_check_in_flight initial).
    - exact sequential_initial.
    - vm_compute. repeat split; reflexivity.
    - vm_compute. reflexivity. }
  assert (Hstep : step e s = Some s') by (vm_compute; reflexivity).
  destruct (C6_progress_of_a_step s s' e (sequential_reachable s Hseq) Hstep)
    as (H1 & H2 & H3 & _ & H5).
  split; [exact H1|]. split; [exact H2|]. split; [exact H3|].
  exact (H5 Hseq I).
Defined.

(** ** The later revision *)

(** In the later revision no file can be selected outside stage [idle]. *)
Lemma later_no_upload_outside_idle s file :
  stage (uploadStatus s) <> Stage.idle ->
  step_later (SelectFile file) s = None.
Proof.
  intros Hne. unfold step_later, file_input_shown_later.
  destruct (Stage.eqb _ _) eqn:E; [|reflexivity].
  apply Stage_eqb_eq in E. contradiction.
Qed.

(** A run of the later revision is a run of the first. *)
Lemma run_later_run es : forall s s',
  run_later es s = Some s' -> run es s = Some s'.
Proof.
  induction es as [|e es IH]; intros s s' H; simpl in *; [exact H|].
  destruct (step_later e s) as [s1|] eqn:E; [|discriminate].
  assert (E' : step e s = Some s1).
  { destruct e; simpl in E; try exact E.
    destruct (file_input_shown_later s); [exact E|discriminate]. }
  rewrite E'. apply IH. exact H.
Qed.

(** The runs used above against C1, C2, C3, C5, C6 and C7 select a file in
    stage [idle] only, so they are runs of the later revision as well. *)
Lemma later_runs :
  run_later cancel_then_late_answer initial
  = run cancel_then_late_answer initial
  /\ run_later (to_orphaned_interval ++ [ ClickReset ]) initial
     = run (to_orphaned_interval ++ [ ClickReset ]) initial
  /\ run_later (to_convert_check ++ [ Settle 7 (Rejected "Network Error") ])
       initial
     = run (to_convert_check ++ [ Settle 7 (Rejected "Network Error") ])
         initial
  /\ run_later (to_completed ++ download_fails) initial
     = run (to_completed ++ download_fails) initial
  /\ run_later (operation_progress_reported
                ++ [ Settle 4 (Resolved (StatusResponse "SUCCESS")) ]) initial
     = run (operation_progress_reported
            ++ [ Settle 4 (Resolved (StatusResponse "SUCCESS")) ]) initial
  /\ run_later (to_task_poll ++ task_poll_pps) initial
     = run (to_task_poll ++ task_poll_pps) initial
  /\ is_Some (run_later cancel_then_late_answer initial)
  /\ is_Some (run_later (to_orphaned_interval ++ [ ClickReset ]) initial)
  /\ is_Some (run_later (to_completed ++ download_fails) initial)
  /\ is_Some (run_later (operation_progress_reported
                ++ [ Settle 4 (Resolved (StatusResponse "SUCCESS")) ]) initial).
Proof.
  repeat split; try (vm_compute; reflexivity); vm_compute; eexists; reflexivity.
Qed.

(** * Further properties of the page *)

(** ** Runs *)

Lemma run_app es1 : forall es2 s,
  run (es1 ++ es2) s
  = match run es1 s with
    | Some s1 => run es2 s1
    | None => None
    end.
Proof.
  induction es1 as [|e es1 IH]; intros es2 s; simpl; [reflexivity|].
  destruct (step e s); [apply IH|reflexivity].
Qed.

Lemma history_app es1 : forall es2 s,
  history (es1 ++ es2) s
  = (history es1 s
     ++ match run es1 s with
        | Some s1 => history es2 s1
        | None => []
        end)%list.
Proof.
  induction es1 as [|e es1 IH]; intros es2 s; simpl.
  - reflexivity.
  - destruct (step e s) as [s1|]; [|reflexivity].
    simpl. rewrite IH. reflexivity.
Qed.

Lemma reachable_run es : forall s s',
  reachable s -> run es s = Some s' -> reachable s'.
Proof.
  induction es as [|e es IH]; intros s s' Hs Hrun; simpl in Hrun.
  - injection Hrun as <-. exact Hs.
  - destruct (step e s) as [s1|] eqn:E; [|discriminate].
    exact (IH s1 s' (reachable_step e s s1 Hs E) Hrun).
Qed.

(** The end of a possible run from [initial] is reachable. *)
Lemma run_reachable es :
  is_Some (run es initial) -> reachable (state_after es).
Proof.
  intros [s Hrun]. unfold state_after. rewrite Hrun. simpl.
  exact (reachable_run es initial s reachable_initial Hrun).
Qed.

(** ** What the status can be *)

Lemma downloadUrl_clearIntervals s :
  downloadUrl (clearIntervals s) = downloadUrl s.
Proof.
  destruct s as [u url sh [a|] [b|] [c|] tm pd nt np]; reflexivity.
Qed.

Lemma showDownload_clearIntervals s :
  showDownload (clearIntervals s) = showDownload s.
Proof.
  destruct s as [u url sh [a|] [b|] [c|] tm pd nt np]; reflexivity.
Qed.

Lemma next_timer_clearIntervals s :
  next_timer (clearIntervals s) = next_timer s.
Proof.
  destruct s as [u url sh [a|] [b|] [c|] tm pd nt np]; reflexivity.
Qed.

(** Both fits are kept by every step: a step writes a literal status of
    the source or none. *)
Lemma status_fits_step e s s' :
  progress_fits (uploadStatus s) && error_fits (uploadStatus s) = true ->
  step e s = Some s' ->
  progress_fits (uploadStatus s') && error_fits (uploadStatus s') = true.
Proof.
  intros Hok Hstep.
  destruct e as [file| | |t|p o]; simpl in Hstep.
  - injection Hstep as <-. unfold handleFileSelect, handleFileUpload.
    destruct file as [f|]; [destruct (String.eqb _ _)|]; reflexivity.
  - destruct (download_shown s); [|discriminate]. injection Hstep as <-.
    unfold handleDownload. destruct (String.eqb _ _); [reflexivity|exact Hok].
  - destruct (reset_shown s); [|discriminate]. injection Hstep as <-.
    reflexivity.
  - destruct (timers s !! t) as [cb|]; [|discriminate].
    injection Hstep as <-. destruct cb; exact Hok.
  - destruct (pending s !! p) as [k|]; [|discriminate].
    destruct k, o as [r|msg]; try destruct r; simpl in Hstep;
      try discriminate Hstep; case_branches Hstep;
      injection Hstep as <-; unfold catch_upload, catch_status, catch_operation;
      rewrite ?uploadStatus_clearIntervals; simpl;
      first [ exact Hok | reflexivity ].
Qed.

Lemma reachable_status_fits s :
  reachable s ->
  progress_fits (uploadStatus s) && error_fits (uploadStatus s) = true.
Proof.
  induction 1 as [|e s s' _ IH Hstep]; [reflexivity|].
  exact (status_fits_step e s s' IH Hstep).
Qed.

(** X1.  In every state the page can reach, the progress is one of the
    values written with the current stage: 0 in [idle] and [error], 10 or
    30 in [uploading], 50 to 75 in [processing], 80 to 90 in [converting],
    100 in [completed]. *)
Theorem progress_fits_stage (s : State) :
  reachable s ->
  match stage (uploadStatus s) with
  | Stage.idle | Stage.error => progress (uploadStatus s) = 0
  | Stage.uploading => 10 <= progress (uploadStatus s) <= 30
  | Stage.processing => 50 <= progress (uploadStatus s) <= 75
  | Stage.converting => 80 <= progress (uploadStatus s) <= 90
  | Stage.completed => progress (uploadStatus s) = 100
  end.
Proof.
  intros Hreach. pose proof (reachable_status_fits s Hreach) as H.
  apply andb_true_iff in H as [H _]. unfold progress_fits in H.
  destruct (stage (uploadStatus s)); lia.
Qed.

Lemma progress_fits_stage_witness :
  50 <= progress (uploadStatus (state_after to_task_poll)) <= 75.
Proof.
  apply (progress_fits_stage (state_after to_task_poll)).
  apply sequential_reachable.
  apply (sequential_run to_task_poll initial).
  - exact sequential_initial.
  - vm_compute. repeat split; reflexivity.
  - vm_compute. reflexivity.
Defined.

(** X2.  In every state the page can reach, the status carries an error
    text exactly in stage [error]. *)
Theorem error_iff_stage_error (s : State) :
  reachable s ->
  (stage (uploadStatus s) = Stage.error
   <-> exists msg, error (uploadStatus s) = Some msg).
Proof.
  intros Hreach. pose proof (reachable_status_fits s Hreach) as H.
  apply andb_true_iff in H as [_ H]. unfold error_fits in H.
  apply eqb_prop in H. split.
  - intros Hst. rewrite Hst in H. simpl in H.
    destruct (error (uploadStatus s)) as [msg|]; [eauto|discriminate].
  - intros [msg Hmsg]. rewrite Hmsg in H. apply Stage_eqb_eq. exact H.
Qed.

Lemma error_iff_stage_error_witness :
  stage (uploadStatus (state_after cancel_then_late_answer)) = Stage.error
  <-> exists msg,
        error (uploadStatus (state_after cancel_then_late_answer)) = Some msg.
Proof.
  apply (error_iff_stage_error (state_after cancel_then_late_answer)).
  apply (run_reachable cancel_then_late_answer). vm_compute. eexists. reflexivity.
Defined.

(** ** The download button *)

Lemma download_fits_step e s s' :
  download_fits s = true -> step e s = Some s' -> download_fits s' = true.
Proof.
  intros Hok Hstep. unfold download_fits in *.
  destruct e as [file| | |t|p o]; simpl in Hstep.
  - injection Hstep as <-. unfold handleFileSelect, handleFileUpload.
    destruct file as [f|]; [destruct (String.eqb (f_type f) _)|]; exact Hok.
  - destruct (download_shown s); [|discriminate]. injection Hstep as <-.
    unfold handleDownload.
    destruct (String.eqb (downloadUrl s) EmptyString) eqn:E; simpl;
      rewrite ?E; exact Hok.
  - destruct (reset_shown s); [|discriminate]. injection Hstep as <-.
    reflexivity.
  - destruct (timers s !! t) as [cb|]; [|discriminate].
    injection Hstep as <-. destruct cb; exact Hok.
  - destruct (pending s !! p) as [k|]; [|discriminate].
    destruct k, o as [r|msg]; try destruct r; simpl in Hstep;
      try discriminate Hstep; case_branches Hstep;
      injection Hstep as <-; unfold catch_upload, catch_status, catch_operation;
      rewrite ?downloadUrl_clearIntervals, ?showDownload_clearIntervals; simpl;
      try exact Hok.
    match goal with
    | H : truthy (Some _) = true |- _ =>
        simpl in H; rewrite H; reflexivity
    end.
Qed.

Lemma reachable_download_fits s : reachable s -> download_fits s = true.
Proof.
  induction 1 as [|e s s' _ IH Hstep]; [reflexivity|].
  exact (download_fits_step e s s' IH Hstep).
Qed.

(** X3.  In every state the page can reach, the download button is shown
    exactly when a non-empty download URL is stored. *)
Theorem download_shown_iff_url (s : State) :
  reachable s ->
  (showDownload s = true <-> downloadUrl s <> EmptyString).
Proof.
  intros Hreach. pose proof (reachable_download_fits s Hreach) as H.
  unfold download_fits in H. apply eqb_prop in H. rewrite H.
  rewrite negb_true_iff. split.
  - intros E Heq. rewrite Heq in E. discriminate E.
  - intros Hne. destruct (String.eqb_spec (downloadUrl s) EmptyString);
      [contradiction|reflexivity].
Qed.

Lemma download_shown_iff_url_witness :
  showDownload (state_after to_completed) = true
  <-> downloadUrl (state_after to_completed) <> EmptyString.
Proof.
  apply (download_shown_iff_url (state_after to_completed)).
  apply (run_reachable to_completed). vm_compute. eexists. reflexivity.
Defined.

(** X4.  Whenever the page lets the user click download, [handleDownload]
    issues the download request and leaves the status alone: its branch
    for a missing URL cannot be taken from the page. *)
Theorem download_click_issues_request (s s' : State) :
  reachable s -> step ClickDownload s = Some s' ->
  s' = await K_download s
  /\ pending s' !! next_promise s = Some K_download
  /\ uploadStatus s' = uploadStatus s.
Proof.
  intros Hreach Hstep. simpl in Hstep. unfold download_shown in Hstep.
  destruct (showDownload s) eqn:Hshow; [|discriminate].
  pose proof (reachable_download_fits s Hreach) as Hfit.
  unfold download_fits in Hfit. rewrite Hshow in Hfit.
  apply eqb_prop in Hfit. symmetry in Hfit. apply negb_true_iff in Hfit.
  injection Hstep as <-. unfold handleDownload. rewrite Hfit.
  split; [reflexivity|]. split; [apply lookup_insert_eq|reflexivity].
Qed.

Lemma download_click_issues_request_witness :
  await K_download (state_after to_completed)
  = await K_download (state_after to_completed)
  /\ pending (await K_download (state_after to_completed))
       !! next_promise (state_after to_completed) = Some K_download
  /\ uploadStatus (await K_download (state_after to_completed))
     = uploadStatus (state_after to_completed).
Proof.
  apply (download_click_issues_request (state_after to_completed)
           (await K_download (state_after to_completed))).
  - apply (run_reachable to_completed). vm_compute. eexists. reflexivity.
  - vm_compute. reflexivity.
Defined.

(** X5.  In every state the page can reach, the error alert is rendered
    only in stage [error], where the progress bar is not: the two are
    never rendered together; and the progress bar is rendered in every
    stage but [idle] and [error]. *)
Theorem alert_and_progress_bar (s : State) :
  reachable s ->
  (error_alert_shown s = true ->
   stage (uploadStatus s) = Stage.error /\ progress_bar_shown s = false)
  /\ (progress_bar_shown s = true <->
      stage (uploadStatus s) <> Stage.idle
      /\ stage (uploadStatus s) <> Stage.error).
Proof.
  intros Hreach. split.
  - unfold error_alert_shown, progress_bar_shown.
    intros H. apply andb_true_iff in H as [_ H].
    assert (Hst : stage (uploadStatus s) = Stage.error).
    { pose proof (reachable_status_fits s Hreach) as Hfit.
      apply andb_true_iff in Hfit as [_ Hfit]. unfold error_fits in Hfit.
      apply eqb_prop in Hfit.
      destruct (error (uploadStatus s)) as [msg|]; [|discriminate].
      apply Stage_eqb_eq. exact Hfit. }
    split; [exact Hst|]. rewrite Hst. apply andb_false_r.
  - unfold progress_bar_shown, progress_section_shown.
    destruct (stage (uploadStatus s)); simpl; split;
      try discriminate; try (intros [H1 H2]; congruence);
      intros _; split; discriminate.
Qed.

Lemma alert_and_progress_bar_witness :
  (error_alert_shown (state_after cancel_then_late_answer) = true ->
   stage (uploadStatus (state_after cancel_then_late_answer)) = Stage.error
   /\ progress_bar_shown (state_after cancel_then_late_answer) = false)
  /\ (progress_bar_shown (state_after cancel_then_late_answer) = true <->
      stage (uploadStatus (state_after cancel_then_late_answer)) <> Stage.idle
      /\ stage (uploadStatus (state_after cancel_then_late_answer))
         <> Stage.error).
Proof.
  apply (alert_and_progress_bar (state_after cancel_then_late_answer)).
  apply (run_reachable cancel_then_late_answer). vm_compute. eexists. reflexivity.
Defined.

(** X6.  Only two things change the stored download URL or the download
    button: a reset, and the answer to the result request of the convert
    task.  In particular a new upload keeps the URL and the button of the
    previous one. *)
Theorem download_url_changes_only (s s' : State) (e : Event) :
  step e s = Some s' ->
  downloadUrl s' <> downloadUrl s \/ showDownload s' <> showDownload s ->
  e = ClickReset
  \/ exists p convertTaskId resultResp,
       e = Settle p (Resolved (ResultResponse resultResp))
       /\ pending s !! p = Some (K_cresult convertTaskId).
Proof.
  intros Hstep Hch.
  destruct e as [file| | |t|p o]; simpl in Hstep.
  - exfalso. injection Hstep as <-. unfold handleFileSelect, handleFileUpload in Hch.
    destruct file as [f|]; [destruct (String.eqb (f_type f) _)|];
      simpl in Hch; tauto.
  - exfalso. destruct (download_shown s); [|discriminate].
    injection Hstep as <-. unfold handleDownload in Hch.
    destruct (String.eqb (downloadUrl s) EmptyString); simpl in Hch; tauto.
  - left; reflexivity.
  - exfalso. destruct (timers s !! t) as [cb|]; [|discriminate].
    injection Hstep as <-. destruct cb; simpl in Hch; tauto.
  - destruct (pending s !! p) as [k|] eqn:Hp; [|discriminate].
    destruct k, o as [r|msg]; try destruct r; simpl in Hstep;
      try discriminate Hstep;
      try (right; eexists; eexists; eexists; split; [reflexivity|exact Hp]);
      exfalso; case_branches Hstep; injection Hstep as <-;
      unfold catch_upload, catch_status, catch_operation in Hch;
      rewrite ?downloadUrl_clearIntervals, ?showDownload_clearIntervals in Hch;
      simpl in Hch; tauto.
Qed.

Lemma download_url_changes_only_witness :
  Settle 8 (Resolved (ResultResponse (Some (mkResult None (Some "X")))))
  = ClickReset
  \/ exists p convertTaskId resultResp,
       Settle 8 (Resolved (ResultResponse (Some (mkResult None (Some "X")))))
       = Settle p (Resolved (ResultResponse resultResp))
       /\ pending (state_after (removelast to_completed)) !! p
          = Some (K_cresult convertTaskId).
Proof.
  apply (download_url_changes_only (state_after (removelast to_completed))
           (state_after to_completed)).
  - vm_compute. reflexivity.
  - left. vm_compute. discriminate.
Defined.

(** ** Selecting a file *)

(** X7.  When no file is selected, or the selected file is not of type
    [application/pdf], [handleFileSelect] writes the error status and does
    nothing else: no request is issued and no interval is touched. *)
Theorem invalid_file_is_refused (s : State) (file : option File) :
  match file with
  | Some f => f_type f <> "application/pdf"
  | None => True
  end ->
  exists s',
    step (SelectFile file) s = Some s'
    /\ s' = updateStatus Stage.error "請選擇有效的 PDF 檔案" 0
              (Some "檔案格式不正確") s
    /\ pending s' = pending s
    /\ timers s' = timers s
    /\ (forall r, current r s' = current r s)
    /\ downloadUrl s' = downloadUrl s.
Proof.
  intros Hfile. simpl. unfold handleFileSelect.
  destruct file as [f|].
  - destruct (String.eqb_spec (f_type f) "application/pdf"); [contradiction|].
    eexists; split; [reflexivity|]. repeat split.
  - eexists; split; [reflexivity|]. repeat split.
Qed.

Lemma invalid_file_is_refused_witness :
  exists s',
    step (SelectFile (Some (mkFile "bom.png" "image/png")))
      (state_after to_task_poll) = Some s'
    /\ s' = updateStatus Stage.error "請選擇有效的 PDF 檔案" 0
              (Some "檔案格式不正確") (state_after to_task_poll)
    /\ pending s' = pending (state_after to_task_poll)
    /\ timers s' = timers (state_after to_task_poll)
    /\ (forall r, current r s' = current r (state_after to_task_poll))
    /\ downloadUrl s' = downloadUrl (state_after to_task_poll).
Proof.
  apply (invalid_file_is_refused (state_after to_task_poll)
           (Some (mkFile "bom.png" "image/png"))).
  simpl. discriminate.
Defined.

(** ** Cancelling *)

Lemma lookup_odelete_Some h (m : gmap nat TimerCb) t cb :
  odelete h m !! t = Some cb <-> m !! t = Some cb /\ h <> Some t.
Proof.
  split; [apply lookup_odelete|].
  intros [Hm Hne]. destruct h as [t'|]; simpl; [|exact Hm].
  rewrite lookup_delete_ne; [exact Hm|]. intros ->. apply Hne. reflexivity.
Qed.

(** X8.  [clearIntervals] cancels exactly the intervals whose handle is in
    one of the three refs: an interval is live afterwards if and only if
    it was live and no ref held it.  It nulls the three refs and changes
    nothing else. *)
Theorem clearIntervals_cancels_exactly (s : State) :
  (forall t cb,
     timers (clearIntervals s) !! t = Some cb
     <-> timers s !! t = Some cb /\ forall r, current r s <> Some t)
  /\ (forall r, current r (clearIntervals s) = None)
  /\ pending (clearIntervals s) = pending s
  /\ uploadStatus (clearIntervals s) = uploadStatus s
  /\ downloadUrl (clearIntervals s) = downloadUrl s
  /\ showDownload (clearIntervals s) = showDownload s.
Proof.
  split; [|split; [intros r; apply current_clearIntervals|]].
  - intros t cb. rewrite timers_clearIntervals, !lookup_odelete_Some. split.
    + intros [[[Hm Hs] Ho] Hc]. split; [exact Hm|].
      intros r; destruct r; assumption.
    + intros [Hm Hno]. repeat split; try exact Hm.
      * exact (Hno StatusRef).
      * exact (Hno OperationRef).
      * exact (Hno ConvertRef).
  - split; [apply pending_clearIntervals|].
    split; [apply uploadStatus_clearIntervals|].
    split; [apply downloadUrl_clearIntervals|apply showDownload_clearIntervals].
Qed.

(** X9.  Cancelling twice is cancelling once, and so is resetting: a
    second [clearIntervals] or [resetUpload] in a row changes nothing. *)
Theorem reset_is_idempotent (s : State) :
  clearIntervals (clearIntervals s) = clearIntervals s
  /\ resetUpload (resetUpload s) = resetUpload s.
Proof.
  destruct s as [u url sh [a|] [b|] [c|] tm pd nt np]; split; reflexivity.
Qed.

(** X10.  A terminal answer to a check (SUCCESS or FAILURE of a task,
    [done] of the operation, or a rejection in the two polls that catch
    it) cancels the interval held in the ref of that poll, and that
    interval only: it cannot fire again. *)
Theorem terminal_answer_stops_poll
    (s : State) (p t : nat) (k : Cont) (cb : TimerCb) (o : Outcome) :
  pending s !! p = Some k ->
  is_check k = true ->
  check_of cb k = true ->
  current (ref_of cb) s = Some t ->
  terminal_answer k o = true ->
  exists s',
    step (Settle p o) s = Some s'
    /\ timers s' = delete t (timers s)
    /\ step (Tick t) s' = None.
Proof.
  intros Hp Hk Hck Href Hterm. rewrite (step_settle _ _ _ _ Hp).
  destruct cb, k; try discriminate Hck; try discriminate Hk; simpl in Href;
    destruct o as [r|msg]; try destruct r; try discriminate Hterm;
    simpl in Hterm; simpl.
  - apply orb_true_iff in Hterm.
    destruct (String.eqb status "SUCCESS");
      [|destruct (String.eqb status "FAILURE"); [|destruct Hterm; discriminate]];
      (eexists; split; [reflexivity|]; simpl; rewrite Href; simpl;
       split; [reflexivity|]; rewrite lookup_delete_eq; reflexivity).
  - eexists; split; [reflexivity|]. simpl. rewrite Href. simpl.
    split; [reflexivity|]. rewrite lookup_delete_eq. reflexivity.
  - subst done. eexists; split; [reflexivity|]. simpl. rewrite Href. simpl.
    split; [reflexivity|]. rewrite lookup_delete_eq. reflexivity.
  - eexists; split; [reflexivity|]. simpl. rewrite Href. simpl.
    split; [reflexivity|]. rewrite lookup_delete_eq. reflexivity.
  - apply orb_true_iff in Hterm.
    destruct (String.eqb status "SUCCESS");
      [|destruct (String.eqb status "FAILURE"); [|destruct Hterm; discriminate]];
      (eexists; split; [reflexivity|]; simpl; rewrite Href; simpl;
       split; [reflexivity|]; rewrite lookup_delete_eq; reflexivity).
Qed.

Lemma terminal_answer_stops_poll_witness :
  exists s',
    step (Settle 3 (Rejected "Network Error"))
      (state_after task_check_in_flight) = Some s'
    /\ timers s' = delete 1%nat (timers (state_after task_check_in_flight))
    /\ step (Tick 1) s' = None.
Proof.
  apply (terminal_answer_stops_poll (state_after task_check_in_flight) 3 1
           (K_status "task-1" "uploads/bom.pdf")
           (CB_status "task-1" "uploads/bom.pdf")
           (Rejected "Network Error")).
  - vm_compute. reflexivity.
  - reflexivity.
  - reflexivity.
  - vm_compute. reflexivity.
  - reflexivity.
Defined.

(** ** Failures *)

Lemma odelete_subseteq h (m : gmap nat TimerCb) : odelete h m ⊆ m.
Proof. destruct h; simpl; [apply delete_subseteq|reflexivity]. Qed.

Lemma timers_clearIntervals_subseteq s : timers (clearIntervals s) ⊆ timers s.
Proof.
  rewrite timers_clearIntervals.
  etransitivity; [apply odelete_subseteq|].
  etransitivity; [apply odelete_subseteq|apply odelete_subseteq].
Qed.

Lemma next_promise_clearIntervals s :
  next_promise (clearIntervals s) = next_promise s.
Proof.
  destruct s as [u url sh [a|] [b|] [c|] tm pd nt np]; reflexivity.
Qed.

(** X11.  A step that takes the pipeline into stage [error] halts what it
    belongs to: it issues no request and starts no interval (the live
    intervals and the requests in flight afterwards were so before). *)
Theorem step_into_error_starts_nothing (s s' : State) (e : Event) :
  step e s = Some s' ->
  stage (uploadStatus s) <> Stage.error ->
  stage (uploadStatus s') = Stage.error ->
  timers s' ⊆ timers s
  /\ pending s' ⊆ pending s
  /\ next_timer s' = next_timer s
  /\ next_promise s' = next_promise s.
Proof.
  intros Hstep Hne Herr.
  destruct e as [file| | |t|p o]; simpl in Hstep.
  - injection Hstep as <-. unfold handleFileSelect, handleFileUpload in *.
    destruct file as [f|]; [destruct (String.eqb (f_type f) _)|];
      simpl in *; try discriminate Herr; repeat split; reflexivity.
  - destruct (download_shown s); [|discriminate]. injection Hstep as <-.
    unfold handleDownload in *.
    destruct (String.eqb (downloadUrl s) EmptyString); simpl in *;
      [repeat split; reflexivity|contradiction].
  - destruct (reset_shown s); [|discriminate]. injection Hstep as <-.
    discriminate Herr.
  - destruct (timers s !! t) as [cb|]; [|discriminate].
    injection Hstep as <-. destruct cb; simpl in Herr; contradiction.
  - destruct (pending s !! p) as [k|] eqn:Hp; [|discriminate].
    assert (Hdel : delete p (pending s) ⊆ pending s) by apply delete_subseteq.
    destruct k, o as [r|msg]; try destruct r; simpl in Hstep;
      try discriminate Hstep; case_branches Hstep; injection Hstep as <-;
      unfold catch_upload, catch_status, catch_operation in *;
      rewrite ?uploadStatus_clearIntervals in Herr; simpl in Herr;
      try discriminate Herr; try contradiction;
      rewrite ?pending_clearIntervals, ?next_timer_clearIntervals,
        ?next_promise_clearIntervals; simpl;
      (split; [first [ apply odelete_subseteq
                     | reflexivity
                     | exact (timers_clearIntervals_subseteq _) ]|]);
      (split; [exact Hdel|]); split; reflexivity.
Qed.

Lemma step_into_error_starts_nothing_witness :
  timers (state_after (task_check_in_flight
            ++ [ Settle 3 (Resolved (StatusResponse "FAILURE")) ]))
    ⊆ timers (state_after task_check_in_flight)
  /\ pending (state_after (task_check_in_flight
               ++ [ Settle 3 (Resolved (StatusResponse "FAILURE")) ]))
       ⊆ pending (state_after task_check_in_flight)
  /\ next_timer (state_after (task_check_in_flight
                  ++ [ Settle 3 (Resolved (StatusResponse "FAILURE")) ]))
     = next_timer (state_after task_check_in_flight)
  /\ next_promise (state_after (task_check_in_flight
                    ++ [ Settle 3 (Resolved (StatusResponse "FAILURE")) ]))
     = next_promise (state_after task_check_in_flight).
Proof.
  apply (step_into_error_starts_nothing (state_after task_check_in_flight)
           (state_after (task_check_in_flight
              ++ [ Settle 3 (Resolved (StatusResponse "FAILURE")) ]))
           (Settle 3 (Resolved (StatusResponse "FAILURE")))).
  - vm_compute. reflexivity.
  - vm_compute. discriminate.
  - vm_compute. reflexivity.
Defined.

(** X12.  When one of the three direct calls of [handleFileUpload] fails
    (the signed-URL request, the PUT or the processing request is
    rejected, or the PUT is answered not ok), the [catch] writes the error
    status with the message of the failure, nulls the three refs and
    cancels the intervals they held, whichever upload started them; no
    request is issued. *)
Theorem direct_call_failure
    (s : State) (p : nat) (k : Cont) (o : Outcome) (msg : string) :
  pending s !! p = Some k ->
  direct_failure k o = Some msg ->
  exists s',
    step (Settle p o) s = Some s'
    /\ uploadStatus s' = mkStatus Stage.error "發生錯誤" 0 (Some msg)
    /\ (forall r, current r s' = None)
    /\ (forall r t, current r s = Some t -> timers s' !! t = None)
    /\ pending s' = delete p (pending s).
Proof.
  intros Hp Hfail. rewrite (step_settle _ _ _ _ Hp).
  assert (Hgoal : exists s',
    Some (catch_upload msg (set_pending (delete p (pending s)) s)) = Some s'
    /\ uploadStatus s' = mkStatus Stage.error "發生錯誤" 0 (Some msg)
    /\ (forall r, current r s' = None)
    /\ (forall r t, current r s = Some t -> timers s' !! t = None)
    /\ pending s' = delete p (pending s)).
  { eexists; split; [reflexivity|]. unfold catch_upload.
    split; [rewrite uploadStatus_clearIntervals; reflexivity|].
    split; [intros r; apply current_clearIntervals|].
    split; [|rewrite pending_clearIntervals; reflexivity].
    intros r t Hr.
    destruct (timers (clearIntervals _) !! t) as [cb|] eqn:E; [|reflexivity].
    rewrite timers_clearIntervals in E. simpl in E.
    apply lookup_odelete in E as [E Hc].
    apply lookup_odelete in E as [E Ho].
    apply lookup_odelete in E as [E Hs].
    destruct r; simpl in Hr; congruence. }
  destruct k, o as [r|m]; try destruct r; try discriminate Hfail;
    simpl in Hfail; simpl.
  - injection Hfail as ->. exact Hgoal.
  - destruct ok; [discriminate Hfail|]. injection Hfail as <-. exact Hgoal.
  - injection Hfail as ->. exact Hgoal.
  - injection Hfail as ->. exact Hgoal.
Qed.

Lemma direct_call_failure_witness :
  exists s',
    step (Settle 1 (Resolved (FetchResponse false "Forbidden")))
      (state_after (firstn 2 to_task_poll)) = Some s'
    /\ uploadStatus s'
       = mkStatus Stage.error "發生錯誤" 0 (Some ("上傳失敗: " ++ "Forbidden"))
    /\ (forall r, current r s' = None)
    /\ (forall r t, current r (state_after (firstn 2 to_task_poll)) = Some t ->
          timers s' !! t = None)
    /\ pending s' = delete 1%nat (pending (state_after (firstn 2 to_task_poll))).
Proof.
  apply (direct_call_failure (state_after (firstn 2 to_task_poll)) 1
           (K_put "uploads/bom.pdf" "bom.pdf")
           (Resolved (FetchResponse false "Forbidden"))).
  - vm_compute. reflexivity.
  - reflexivity.
Defined.

(** X13.  When the result of the recognition task carries no usable
    [operation_name] (the result is null, or the field is absent or
    empty), the pipeline fails with the text of the source, the task
    interval is cancelled, and no operation poll is started. *)
Theorem missing_operation_name
    (s : State) (p : nat) (task_id file_key : string)
    (resultResp : option TaskResult) :
  pending s !! p = Some (K_result task_id file_key) ->
  no_operation_name resultResp = true ->
  exists s',
    step (Settle p (Resolved (ResultResponse resultResp))) s = Some s'
    /\ uploadStatus s'
       = mkStatus Stage.error "檢查任務狀態失敗" 0
           (Some "任務結果中沒有 operation_name")
    /\ timers s' = odelete (statusCheckInterval s) (timers s)
    /\ operationCheckInterval s' = operationCheckInterval s
    /\ next_timer s' = next_timer s
    /\ pending s' = delete p (pending s).
Proof.
  intros Hp Hno. rewrite (step_settle _ _ _ _ Hp). simpl.
  destruct resultResp as [r|]; simpl in Hno.
  - apply negb_true_iff in Hno. rewrite Hno.
    eexists; split; [reflexivity|]. repeat split.
  - eexists; split; [reflexivity|]. repeat split.
Qed.

Lemma missing_operation_name_witness :
  exists s',
    step (Settle 4 (Resolved (ResultResponse (Some (mkResult (Some EmptyString) None)))))
      (state_after (to_task_poll ++ poll 1 3 (StatusResponse "SUCCESS")))
    = Some s'
    /\ uploadStatus s'
       = mkStatus Stage.error "檢查任務狀態失敗" 0
           (Some "任務結果中沒有 operation_name")
    /\ timers s'
       = odelete (statusCheckInterval
                    (state_after (to_task_poll
                                  ++ poll 1 3 (StatusResponse "SUCCESS"))))
           (timers (state_after (to_task_poll
                                 ++ poll 1 3 (StatusResponse "SUCCESS"))))
    /\ operationCheckInterval s'
       = operationCheckInterval
           (state_after (to_task_poll ++ poll 1 3 (StatusResponse "SUCCESS")))
    /\ next_timer s'
       = next_timer
           (state_after (to_task_poll ++ poll 1 3 (StatusResponse "SUCCESS")))
    /\ pending s'
       = delete 4%nat
           (pending (state_after (to_task_poll
                                  ++ poll 1 3 (StatusResponse "SUCCESS")))).
Proof.
  apply (missing_operation_name
           (state_after (to_task_poll ++ poll 1 3 (StatusResponse "SUCCESS")))
           4 "task-1" "uploads/bom.pdf"
           (Some (mkResult (Some EmptyString) None))).
  - vm_compute. reflexivity.
  - reflexivity.
Defined.

(** X14.  A failed download request puts the pipeline in stage [error]
    with the message of the failure, but keeps the stored URL and the
    download button: the user can click download again, or reset. *)
Theorem failed_download_can_be_retried (s : State) (p : nat) (msg : string) :
  pending s !! p = Some K_download ->
  showDownload s = true ->
  exists s',
    step (Settle p (Rejected msg)) s = Some s'
    /\ uploadStatus s' = mkStatus Stage.error "下載失敗" 0 (Some msg)
    /\ downloadUrl s' = downloadUrl s
    /\ showDownload s' = true
    /\ step ClickDownload s' = Some (handleDownload s')
    /\ step ClickReset s' = Some (resetUpload s').
Proof.
  intros Hp Hshow. rewrite (step_settle _ _ _ _ Hp). simpl.
  eexists; split; [reflexivity|]. simpl.
  unfold download_shown, reset_shown; simpl. rewrite Hshow.
  repeat split.
Qed.

Lemma failed_download_can_be_retried_witness :
  exists s',
    step (Settle 9 (Rejected "Network Error"))
      (state_after (to_completed ++ [ ClickDownload ])) = Some s'
    /\ uploadStatus s' = mkStatus Stage.error "下載失敗" 0 (Some "Network Error")
    /\ downloadUrl s' = downloadUrl (state_after (to_completed ++ [ ClickDownload ]))
    /\ showDownload s' = true
    /\ step ClickDownload s' = Some (handleDownload s')
    /\ step ClickReset s' = Some (resetUpload s').
Proof.
  apply (failed_download_can_be_retried
           (state_after (to_completed ++ [ ClickDownload ])) 9 "Network Error").
  - vm_compute. reflexivity.
  - vm_compute. reflexivity.
Defined.

(** ** One poll at a time *)

(** X15.  In a run in which one thing happens at a time, at most one
    interval is live and at most one request is in flight, and a live
    interval is held by the ref of its poll. *)
Theorem one_poll_at_a_time (s : State) :
  sequential s ->
  (size (timers s) <= 1)%nat
  /\ (size (pending s) <= 1)%nat
  /\ (forall t cb, timers s !! t = Some cb -> current (ref_of cb) s = Some t).
Proof.
  intros Hseq. pose proof (sequential_shape s Hseq) as Hsh.
  destruct Hsh as [Htm Hpd | p0 k0 Htm Hpd Hfl | t0 cb0 Htm Href Hpd Hfl
                  | t0 cb0 p0 k0 Htm Href Hpd Hck Hft Hfk];
    rewrite Htm, Hpd;
    rewrite ?map_size_empty, ?map_size_singleton;
    (split; [lia|split; [lia|]]); intros t cb Ht;
    try (rewrite lookup_empty in Ht; discriminate Ht);
    apply lookup_singleton_Some in Ht as [<- <-]; exact Href.
Qed.

Lemma one_poll_at_a_time_witness :
  (size (timers (state_after task_check_in_flight)) <= 1)%nat
  /\ (size (pending (state_after task_check_in_flight)) <= 1)%nat
  /\ (forall t cb,
        timers (state_after task_check_in_flight) !! t = Some cb ->
        current (ref_of cb) (state_after task_check_in_flight) = Some t).
Proof.
  apply (one_poll_at_a_time (state_after task_check_in_flight)).
  apply (sequential_run task_check_in_flight initial).
  - exact sequential_initial.
  - vm_compute. repeat split; reflexivity.
  - vm_compute. reflexivity.
Defined.

(** ** Polls of any length *)

Ltac map_steps :=
  repeat first [ rewrite lookup_singleton_eq | rewrite lookup_insert_eq
               | rewrite delete_insert_eq | rewrite delete_singleton_eq
               | rewrite delete_empty | rewrite insert_empty
               | progress simpl ].

(** One check answered with an answer on which the poll goes on. *)
Lemma poll_once s t cb r :
  at_poll t cb s -> keeps_polling cb r = true ->
  exists s1,
    run (poll t (next_promise s) r) s = Some s1
    /\ history (poll t (next_promise s) r) s = [ fire cb s; s1 ]
    /\ at_poll t cb s1
    /\ next_promise s1 = S (next_promise s)
    /\ next_timer s1 = next_timer s
    /\ (forall rf, current rf s1 = current rf s)
    /\ downloadUrl s1 = downloadUrl s
    /\ showDownload s1 = showDownload s
    /\ uploadStatus s1 = pending_status cb r.
Proof.
  intros (Htm & Href & Hpd) Hr.
  destruct s as [u url sh rs ro rc tm pd nt np]; simpl in *; subst.
  unfold poll, at_poll.
  destruct cb, r; try discriminate Hr; simpl in Hr, Href; subst; map_steps.
  - apply andb_true_iff in Hr as [H1 H2].
    apply negb_true_iff in H1, H2. rewrite H1, H2.
    eexists; split; [reflexivity|]. map_steps.
    repeat split.
  - destruct done; [discriminate Hr|].
    eexists; split; [reflexivity|]. map_steps.
    repeat split.
  - apply andb_true_iff in Hr as [H1 H2].
    apply negb_true_iff in H1, H2. rewrite H1, H2.
    eexists; split; [reflexivity|]. map_steps.
    repeat split.
Qed.

(** Any number of such checks, by induction on that number. *)
Lemma polls_pending
    (n : nat) (s : State) (t : nat) (cb : TimerCb) (r : Response) :
  at_poll t cb s -> keeps_polling cb r = true ->
  exists s',
    run (polls t (next_promise s) r n) s = Some s'
    /\ at_poll t cb s'
    /\ next_promise s' = (next_promise s + n)%nat
    /\ next_timer s' = next_timer s
    /\ (forall rf, current rf s' = current rf s)
    /\ downloadUrl s' = downloadUrl s
    /\ showDownload s' = showDownload s
    /\ uploadStatus s'
       = match n with O => uploadStatus s | S _ => pending_status cb r end
    /\ Forall (fun x => timers x = timers s
                        /\ (uploadStatus x = uploadStatus s
                            \/ uploadStatus x = pending_status cb r))
         (history (polls t (next_promise s) r n) s).
Proof.
  revert s. induction n as [|n IH]; intros s Hat Hr.
  - simpl. exists s. repeat split; try assumption; try apply Hat.
    + lia.
    + constructor.
  - destruct (poll_once s t cb r Hat Hr)
      as (s1 & Hrun1 & Hhist1 & Hat1 & Hnp1 & Hnt1 & Hrf1 & Hurl1 & Hsh1 & Hu1).
    destruct (IH s1 Hat1 Hr)
      as (s' & Hrun & Hat' & Hnp & Hnt & Hrf & Hurl & Hsh & Hu & Hall).
    rewrite Hnp1 in Hrun, Hall.
    change (polls t (next_promise s) r (S n))
      with (poll t (next_promise s) r ++ polls t (S (next_promise s)) r n)%list.
    exists s'. rewrite run_app, Hrun1, history_app, Hrun1, Hhist1.
    cbv iota beta. split; [exact Hrun|]. split; [exact Hat'|].
    split; [rewrite Hnp, Hnp1; lia|].
    split; [congruence|].
    split; [intros rf; rewrite Hrf; apply Hrf1|].
    split; [congruence|]. split; [congruence|].
    split; [destruct n; congruence|].
    assert (Htm1 : timers s1 = timers s).
    { destruct Hat as (Htm & _), Hat1 as (Htm1 & _). congruence. }
    simpl app.
    constructor; [|constructor].
    + split; [destruct cb; reflexivity|left; destruct cb; reflexivity].
    + split; [exact Htm1|right; exact Hu1].
    + eapply Forall_impl; [exact Hall|].
      intros x [Hx1 Hx2]. split; [congruence|].
      right. destruct Hx2; congruence.
Qed.

(** X16.  While the answers are the ones on which a poll goes on (a task
    status other than SUCCESS and FAILURE, [done: false] of the
    operation), the poll goes on for any number [n] of checks: after each
    of them the same single interval is live, held by its ref, nothing is
    in flight, and the status is the pending status of that poll; no
    other field changes. *)
Theorem poll_goes_on_while_pending
    (n : nat) (s : State) (t : nat) (cb : TimerCb) (r : Response) :
  at_poll t cb s -> keeps_polling cb r = true ->
  exists s',
    run (polls t (next_promise s) r n) s = Some s'
    /\ at_poll t cb s'
    /\ next_promise s' = (next_promise s + n)%nat
    /\ next_timer s' = next_timer s
    /\ (forall rf, current rf s' = current rf s)
    /\ downloadUrl s' = downloadUrl s
    /\ showDownload s' = showDownload s
    /\ uploadStatus s'
       = match n with O => uploadStatus s | S _ => pending_status cb r end
    /\ Forall (fun x => timers x = timers s
                        /\ (uploadStatus x = uploadStatus s
                            \/ uploadStatus x = pending_status cb r))
         (history (polls t (next_promise s) r n) s).
Proof.
  intros Hat Hr.
  destruct (polls_pending n s t cb r Hat Hr)
    as (s' & Hrun & Hat' & Hnp & Hnt & Hrf & Hurl & Hsh & Hu & Hall).
  exists s'. split; [exact Hrun|]. split; [exact Hat'|].
  split; [exact Hnp|]. split; [exact Hnt|]. split; [exact Hrf|].
  split; [exact Hurl|]. split; [exact Hsh|]. split; [exact Hu|exact Hall].
Qed.

Lemma poll_goes_on_while_pending_witness :
  exists s',
    run (polls 1 (next_promise (state_after to_task_poll))
           (StatusResponse "STARTED") 4) (state_after to_task_poll) = Some s'
    /\ at_poll 1 (CB_status "task-1" "uploads/bom.pdf") s'
    /\ next_promise s' = (next_promise (state_after to_task_poll) + 4)%nat
    /\ next_timer s' = next_timer (state_after to_task_poll)
    /\ (forall rf, current rf s' = current rf (state_after to_task_poll))
    /\ downloadUrl s' = downloadUrl (state_after to_task_poll)
    /\ showDownload s' = showDownload (state_after to_task_poll)
    /\ uploadStatus s'
       = pending_status (CB_status "task-1" "uploads/bom.pdf")
           (StatusResponse "STARTED")
    /\ Forall (fun x => timers x = timers (state_after to_task_poll)
                        /\ (uploadStatus x
                            = uploadStatus (state_after to_task_poll)
                            \/ uploadStatus x
                               = pending_status
                                   (CB_status "task-1" "uploads/bom.pdf")
                                   (StatusResponse "STARTED")))
         (history (polls 1 (next_promise (state_after to_task_poll))
                     (StatusResponse "STARTED") 4)
            (state_after to_task_poll)).
Proof.
  apply (poll_goes_on_while_pending 4 (state_after to_task_poll) 1
           (CB_status "task-1" "uploads/bom.pdf") (StatusResponse "STARTED")).
  - vm_compute. repeat split; reflexivity.
  - reflexivity.
Defined.

(** The three ways a poll ends well, each with the direct call that
    follows it. *)
Lemma task_success s t task_id file_key r operationName :
  at_poll t (CB_status task_id file_key) s ->
  operation_name r = Some operationName ->
  operationName <> EmptyString ->
  exists s',
    run (poll t (next_promise s) (StatusResponse "SUCCESS")
         ++ [ Settle (S (next_promise s))
                (Resolved (ResultResponse (Some r))) ]) s = Some s'
    /\ at_poll (next_timer s) (CB_operation operationName file_key) s'
    /\ next_promise s' = S (S (next_promise s))
    /\ next_timer s' = S (next_timer s)
    /\ downloadUrl s' = downloadUrl s
    /\ showDownload s' = showDownload s
    /\ uploadStatus s'
       = mkStatus Stage.processing "辨識完成，查詢作業狀態中..." 70 None.
Proof.
  intros (Htm & Href & Hpd) Hop Hne.
  destruct s as [u url sh rs ro rc tm pd nt np]; simpl in *; subst.
  destruct r as [on gp]; simpl in Hop; subst on.
  destruct operationName as [|c op']; [congruence|].
  unfold poll, at_poll. map_steps.
  eexists; split; [reflexivity|]. map_steps. repeat split.
Qed.

Lemma operation_done s t operationName file_key convertTaskId :
  at_poll t (CB_operation operationName file_key) s ->
  exists s',
    run (poll t (next_promise s) (OperationResponse true)
         ++ [ Settle (S (next_promise s))
                (Resolved (ConvertResponse convertTaskId)) ]) s = Some s'
    /\ at_poll (next_timer s) (CB_convert convertTaskId) s'
    /\ next_promise s' = S (S (next_promise s))
    /\ next_timer s' = S (next_timer s)
    /\ downloadUrl s' = downloadUrl s
    /\ showDownload s' = showDownload s
    /\ uploadStatus s'
       = mkStatus Stage.converting "轉換任務已啟動，請稍候..." 85 None.
Proof.
  intros (Htm & Href & Hpd).
  destruct s as [u url sh rs ro rc tm pd nt np]; simpl in *; subst.
  unfold poll, at_poll. map_steps.
  eexists; split; [reflexivity|]. map_steps. repeat split.
Qed.

Lemma convert_success s t convertTaskId r X :
  at_poll t (CB_convert convertTaskId) s ->
  gcs_download_path r = Some X ->
  X <> EmptyString ->
  exists s',
    run (poll t (next_promise s) (StatusResponse "SUCCESS")
         ++ [ Settle (S (next_promise s))
                (Resolved (ResultResponse (Some r))) ]) s = Some s'
    /\ timers s' = ∅
    /\ pending s' = ∅
    /\ uploadStatus s' = mkStatus Stage.completed "轉換完成！" 100 None
    /\ downloadUrl s' = X
    /\ showDownload s' = true.
Proof.
  intros (Htm & Href & Hpd) Hgp Hne.
  destruct s as [u url sh rs ro rc tm pd nt np]; simpl in *; subst.
  destruct r as [on gp]; simpl in Hgp; subst gp.
  destruct X as [|c X']; [congruence|].
  unfold poll. map_steps.
  eexists; split; [reflexivity|]. map_steps. repeat split.
Qed.

Lemma upload_phase file signed_url file_key file_name task_id :
  f_type file = "application/pdf" ->
  exists s',
    run (upload_events file signed_url file_key file_name task_id) initial
    = Some s'
    /\ at_poll 1 (CB_status task_id file_key) s'
    /\ next_promise s' = 3%nat
    /\ next_timer s' = 2%nat
    /\ downloadUrl s' = EmptyString
    /\ showDownload s' = false.
Proof.
  intros Hpdf. destruct file as [nm ty]; simpl in Hpdf; subst ty.
  eexists; split; [vm_compute; reflexivity|].
  unfold at_poll. repeat split.
Qed.

(** X17.  The pipeline completes however long the three polls take: with
    any numbers [n1], [n2], [n3] of pending answers of the task poll, the
    operation poll and the convert poll before the final ones, the run is
    possible and ends in stage [completed] with progress 100, the download
    URL [X] of the convert result, the download button shown, and no
    interval or request left. *)
Theorem pipeline_completes
    (file : File) (signed_url file_key file_name task_id : string)
    (operationName convertTaskId X : string) (g o : option string)
    (n1 n2 n3 : nat) :
  f_type file = "application/pdf" ->
  operationName <> EmptyString ->
  X <> EmptyString ->
  exists s,
    run (pipeline file signed_url file_key file_name task_id
           (mkResult (Some operationName) g) convertTaskId
           (mkResult o (Some X)) n1 n2 n3) initial = Some s
    /\ uploadStatus s = mkStatus Stage.completed "轉換完成！" 100 None
    /\ downloadUrl s = X
    /\ showDownload s = true
    /\ timers s = ∅
    /\ pending s = ∅.
Proof.
  intros Hpdf Hop HX. unfold pipeline.
  destruct (upload_phase file signed_url file_key file_name task_id Hpdf)
    as (s1 & R1 & A1 & P1 & T1 & _).
  rewrite run_app, R1.
  destruct (polls_pending n1 s1 1 _ (StatusResponse "PENDING")
              A1 eq_refl) as (s2 & R2 & A2 & P2 & T2 & _).
  rewrite P1 in R2, P2. rewrite run_app, R2.
  destruct (task_success s2 1 task_id file_key
              (mkResult (Some operationName) g) operationName A2 eq_refl Hop)
    as (s3 & R3 & A3 & P3 & T3 & _).
  rewrite P2 in R3, P3. rewrite T2, T1 in A3, T3.
  rewrite app_assoc, run_app, R3.
  destruct (polls_pending n2 s3 2 _ (OperationResponse false)
              A3 eq_refl) as (s4 & R4 & A4 & P4 & T4 & _).
  rewrite P3 in R4, P4. rewrite run_app, R4.
  destruct (operation_done s4 2 operationName file_key convertTaskId A4)
    as (s5 & R5 & A5 & P5 & T5 & _).
  rewrite P4 in R5, P5. rewrite T4, T3 in A5, T5.
  rewrite app_assoc, run_app, R5.
  destruct (polls_pending n3 s5 3 _ (StatusResponse "PENDING")
              A5 eq_refl) as (s6 & R6 & A6 & P6 & T6 & _).
  rewrite P5 in R6, P6. rewrite run_app, R6.
  destruct (convert_success s6 3 convertTaskId (mkResult o (Some X)) X
              A6 eq_refl HX) as (s7 & R7 & Htm & Hpd & Hu & Hurl & Hsh).
  rewrite P6 in R7.
  exists s7. split; [exact R7|]. repeat split; assumption.
Qed.

Lemma pipeline_completes_witness :
  exists s,
    run (pipeline pdf "https://storage/put" "uploads/bom.pdf" "bom.pdf"
           "task-1" (mkResult (Some "operations/42") None) "task-2"
           (mkResult None (Some "X")) 2 3 1) initial = Some s
    /\ uploadStatus s = mkStatus Stage.completed "轉換完成！" 100 None
    /\ downloadUrl s = "X"
    /\ showDownload s = true
    /\ timers s = ∅
    /\ pending s = ∅.
Proof.
  apply (pipeline_completes pdf "https://storage/put" "uploads/bom.pdf"
           "bom.pdf" "task-1" "operations/42" "task-2" "X" None None 2 3 1).
  - reflexivity.
  - discriminate.
  - discriminate.
Defined.

(** ** Handles *)

Lemma handles_fit_shrinks s s' : handles_fit s -> shrinks s s' -> handles_fit s'.
Proof.
  intros (H1 & H2 & H3) (S1 & S2 & S3). repeat split.
  - intros t cb Ht. rewrite S3. exact (H1 t cb (S1 t cb Ht)).
  - intros r t Hr. rewrite S3. exact (H2 r t (S2 r t Hr)).
  - intros r t cb Hr Ht. exact (H3 r t cb (S2 r t Hr) (S1 t cb Ht)).
Qed.

Lemma handles_fit_setInterval s cb :
  handles_fit s -> handles_fit (setInterval (ref_of cb) cb s).
Proof.
  intros (H1 & H2 & H3). repeat split.
  - intros t cb' Ht. simpl in *.
    apply lookup_insert_Some in Ht as [[<- _]|[_ Ht]]; [lia|].
    pose proof (H1 t cb' Ht). lia.
  - intros r t Hr.
    assert (t = next_timer s \/ current r s = Some t) as [->|Hr'].
    { destruct cb, r; simpl in Hr; try (right; exact Hr);
        injection Hr as <-; left; reflexivity. }
    + simpl. lia.
    + pose proof (H2 r t Hr'). simpl. lia.
  - intros r t cb' Hr Ht. simpl in Ht.
    apply lookup_insert_Some in Ht as [[<- <-]|[Hne Ht]].
    + destruct cb, r; simpl in Hr |- *; try reflexivity;
        match type of Hr with
        | statusCheckInterval _ = _ => apply (H2 StatusRef) in Hr
        | operationCheckInterval _ = _ => apply (H2 OperationRef) in Hr
        | convertCheckInterval _ = _ => apply (H2 ConvertRef) in Hr
        end; lia.
    + assert (Hr' : current r s = Some t).
      { destruct cb, r; simpl in Hr; try exact Hr;
          injection Hr as <-; contradiction. }
      exact (H3 r t cb' Hr' Ht).
Qed.

Ltac solve_shrinks :=
  unfold shrinks, catch_upload, catch_status, catch_operation;
  split; [|split];
  [ let H := fresh in
    intros ? ? H; rewrite ?timers_clearIntervals in H; simpl in H;
    repeat (apply lookup_odelete in H as [H _]); exact H
  | let H := fresh in
    let r := fresh in
    intros r ? H; rewrite ?current_clearIntervals in H;
    try discriminate H; destruct r; simpl in H; exact H
  | rewrite ?next_timer_clearIntervals; reflexivity ].

Lemma handles_fit_step e s s' :
  handles_fit s -> step e s = Some s' -> handles_fit s'.
Proof.
  intros Hfit Hstep.
  destruct e as [file| | |t|p o]; simpl in Hstep.
  - injection Hstep as <-. apply (handles_fit_shrinks s); [exact Hfit|].
    unfold handleFileSelect, handleFileUpload.
    destruct file as [f|]; [destruct (String.eqb (f_type f) _)|]; solve_shrinks.
  - destruct (download_shown s); [|discriminate]. injection Hstep as <-.
    apply (handles_fit_shrinks s); [exact Hfit|]. unfold handleDownload.
    destruct (String.eqb (downloadUrl s) EmptyString); solve_shrinks.
  - destruct (reset_shown s); [|discriminate]. injection Hstep as <-.
    apply (handles_fit_shrinks s); [exact Hfit|]. unfold resetUpload.
    split; [|split].
    + intros t0 cb H. simpl in H. rewrite timers_clearIntervals in H.
      repeat (apply lookup_odelete in H as [H _]). exact H.
    + intros r t0 H.
      assert (E : current r (clearIntervals s) = Some t0)
        by (destruct r; exact H).
      rewrite current_clearIntervals in E. discriminate E.
    + simpl. apply next_timer_clearIntervals.
  - destruct (timers s !! t) as [cb|]; [|discriminate]. injection Hstep as <-.
    apply (handles_fit_shrinks s); [exact Hfit|]. destruct cb; solve_shrinks.
  - destruct (pending s !! p) as [k|] eqn:Hp; [|discriminate].
    destruct k, o as [r|msg]; try destruct r; simpl in Hstep;
      try discriminate Hstep; case_branches Hstep; injection Hstep as <-;
      first
        [ apply (handles_fit_shrinks s); [exact Hfit|]; solve_shrinks
        | match goal with
          | |- handles_fit (setInterval ?r ?cb ?x) =>
              apply (handles_fit_setInterval x cb);
              apply (handles_fit_shrinks s); [exact Hfit|]; solve_shrinks
          end ].
Qed.

Lemma reachable_handles_fit s : reachable s -> handles_fit s.
Proof.
  induction 1 as [|e s s' _ IH Hstep].
  - repeat split; intros; try (rewrite lookup_empty in *); try discriminate.
    destruct r; discriminate.
  - exact (handles_fit_step e s s' IH Hstep).
Qed.

(** X18.  In every state the page can reach, a ref holds a handle of its
    own kind of poll only: when the interval a ref points at is live, it
    runs the callback that is stored in that ref (the task-status callback
    for [statusCheckInterval], and so on).  So the
    [clearInterval(ref.current)] of a callback never cancels a live
    interval of another kind; it can cancel the interval of another poll
    of the same kind.  Handles are taken to be fresh, as [setInterval]
    hands them out here. *)
Theorem refs_hold_their_own_kind (s : State) (r : Ref) :
  reachable s ->
  (forall t cb,
     current r s = Some t -> timers s !! t = Some cb -> ref_of cb = r)
  /\ (forall t cb,
        timers s !! t = Some cb -> ref_of cb <> r ->
        timers (clearInterval (current r s) s) !! t = Some cb).
Proof.
  intros Hreach.
  destruct (reachable_handles_fit s Hreach) as (_ & _ & H3).
  split; [intros t cb; apply H3|].
  intros t cb Ht Hne. simpl. apply lookup_odelete_Some.
  split; [exact Ht|]. intros Hr. apply Hne. exact (H3 r t cb Hr Ht).
Qed.

Lemma refs_hold_their_own_kind_witness :
  (forall t cb,
     current OperationRef (state_after to_two_convert_polls) = Some t ->
     timers (state_after to_two_convert_polls) !! t = Some cb ->
     ref_of cb = OperationRef)
  /\ (forall t cb,
        timers (state_after to_two_convert_polls) !! t = Some cb ->
        ref_of cb <> OperationRef ->
        timers (clearInterval
                  (current OperationRef (state_after to_two_convert_polls))
                  (state_after to_two_convert_polls)) !! t = Some cb).
Proof.
  apply (refs_hold_their_own_kind (state_after to_two_convert_polls)
           OperationRef).
  apply (run_reachable to_two_convert_polls). vm_compute. eexists. reflexivity.
Defined.

(** ** Icon and colour *)

(** X19.  [getStatusIcon] and [getStatusColor] tell the same three cases
    apart: two statuses get the same icon exactly when they get the same
    text colour; both are the ones of a run in progress in every stage but
    [completed] and [error]. *)
Theorem icon_and_colour_agree (s1 s2 : State) :
  (getStatusIcon s1 = getStatusIcon s2
   <-> getStatusColor s1 = getStatusColor s2)
  /\ (getStatusColor s1 = "blue.600"
      <-> stage (uploadStatus s1) <> Stage.completed
          /\ stage (uploadStatus s1) <> Stage.error)
  /\ (getStatusIcon s1 = mkIcon FiFileText "blue.500"
      <-> getStatusColor s1 = "blue.600").
Proof.
  unfold getStatusIcon, getStatusColor.
  destruct (stage (uploadStatus s1)), (stage (uploadStatus s2));
    repeat split; intros; try discriminate; try reflexivity;
    repeat match goal with H : _ /\ _ |- _ => destruct H end;
    congruence.
Qed.

(** ** The operation poll *)

(** X20.  When the operation poll is answered [done: false] any number
    [n] of times and then [done: true], the status is the one of the
    start or (processing, 75) after each of the first [n] answers, and
    only the last answer moves the pipeline to stage [converting] (80):
    the operation interval is then cancelled and the conversion request
    is the one request in flight. *)
Theorem operation_poll_until_done
    (n : nat) (s : State) (t : nat) (operationName file_key : string) :
  at_poll t (CB_operation operationName file_key) s ->
  exists s1 s',
    run (polls t (next_promise s) (OperationResponse false) n) s = Some s1
    /\ Forall (fun x => uploadStatus x = uploadStatus s
                        \/ uploadStatus x
                           = mkStatus Stage.processing "作業處理中，請稍候..." 75
                               None)
         (history (polls t (next_promise s) (OperationResponse false) n) s)
    /\ run (poll t (next_promise s + n) (OperationResponse true)) s1 = Some s'
    /\ uploadStatus s'
       = mkStatus Stage.converting "作業完成！可進行後續轉換。" 80 None
    /\ timers s' = ∅
    /\ pending s' = {[ S (next_promise s + n) := K_convert file_key ]}.
Proof.
  intros Hat.
  destruct (polls_pending n s t _ (OperationResponse false)
              Hat eq_refl)
    as (s1 & R1 & (Htm & Href & Hpd) & P1 & _ & _ & _ & _ & _ & Hall).
  exists s1.
  destruct s1 as [u url sh rs ro rc tm pd nt np]; simpl in *; subst.
  eexists. split; [exact R1|].
  split.
  { eapply Forall_impl; [exact Hall|]. intros x [_ Hx]. exact Hx. }
  unfold poll. map_steps. repeat split; map_steps; reflexivity.
Qed.

Lemma operation_poll_until_done_witness :
  let s0 := state_after (firstn 7 to_convert_check) in
  exists s1 s',
    run (polls 2 (next_promise s0) (OperationResponse false) 3) s0 = Some s1
    /\ Forall (fun x => uploadStatus x = uploadStatus s0
                        \/ uploadStatus x
                           = mkStatus Stage.processing "作業處理中，請稍候..." 75
                               None)
         (history (polls 2 (next_promise s0) (OperationResponse false) 3) s0)
    /\ run (poll 2 (next_promise s0 + 3) (OperationResponse true)) s1
       = Some s'
    /\ uploadStatus s'
       = mkStatus Stage.converting "作業完成！可進行後續轉換。" 80 None
    /\ timers s' = ∅
    /\ pending s' = {[ S (next_promise s0 + 3) := K_convert "uploads/bom.pdf" ]}.
Proof.
  intros s0.
  apply (operation_poll_until_done 3 s0 2 "operations/42" "uploads/bom.pdf").
  vm_compute. repeat split; reflexivity.
Defined.

(** ** The order of the stages *)

(** In a run in which one thing happens at a time, a step that is not a
    reset or a file selection and does not end in stage [error] does not
    lower the progress. *)
Lemma sequential_progress_step s s' e :
  sequential s -> in_order e s -> step e s = Some s' ->
  e <> ClickReset -> (forall file, e <> SelectFile file) ->
  stage (uploadStatus s') <> Stage.error ->
  progress (uploadStatus s) <= progress (uploadStatus s').
Proof.
  intros Hseq Hord Hstep Hreset Hselect Herr.
  pose proof (sequential_shape s Hseq) as Hsh.
  destruct e as [file| | |t|p o].
  - exfalso. exact (Hselect file eq_refl).
  - simpl in Hstep. destruct (download_shown s); [|discriminate].
    injection Hstep as <-. unfold handleDownload in *.
    destruct (String.eqb (downloadUrl s) EmptyString); simpl in *;
      [exfalso; apply Herr; reflexivity|lia].
  - contradiction.
  - simpl in Hstep. destruct (timers s !! t) as [cb|]; [|discriminate].
    injection Hstep as <-. destruct cb; simpl; lia.
  - destruct (pending s !! p) as [k|] eqn:Hp;
      [|simpl in Hstep; rewrite Hp in Hstep; discriminate].
    destruct (settle_progress s p k o s' Hp (shape_floor s p k Hsh Hp) Hstep)
      as [He|Hle]; [contradiction|exact Hle].
Qed.

(** X21.  In a run in which one thing happens at a time, the stage never
    goes back: a step that is not a reset or a file selection and does
    not end in stage [error] leaves the stage where it is or takes it
    further along uploading, processing, converting, completed. *)
Theorem stage_never_goes_back (s s' : State) (e : Event) :
  sequential s -> in_order e s -> step e s = Some s' ->
  e <> ClickReset -> (forall file, e <> SelectFile file) ->
  stage (uploadStatus s') <> Stage.error ->
  (stage_rank (stage (uploadStatus s))
   <= stage_rank (stage (uploadStatus s')))%nat.
Proof.
  intros Hseq Hord Hstep Hreset Hselect Herr.
  pose proof (sequential_progress_step s s' e Hseq Hord Hstep Hreset Hselect
                Herr) as Hle.
  pose proof (sequential_reachable s Hseq) as Hreach.
  pose proof (reachable_status_fits s Hreach) as H1.
  pose proof (reachable_status_fits s' (reachable_step e s s' Hreach Hstep))
    as H2.
  apply andb_true_iff in H1 as [H1 _]. apply andb_true_iff in H2 as [H2 _].
  unfold progress_fits in H1, H2.
  destruct (stage (uploadStatus s)), (stage (uploadStatus s'));
    simpl; try lia; contradiction.
Qed.

Lemma stage_never_goes_back_witness :
  (stage_rank (stage (uploadStatus (state_after task_check_in_flight)))
   <= stage_rank
        (stage (uploadStatus
                  (state_after (task_check_in_flight
                     ++ [ Settle 3 (Resolved (StatusResponse "SUCCESS")) ])))))%nat.
Proof.
  apply (stage_never_goes_back (state_after task_check_in_flight)
           (state_after (task_check_in_flight
              ++ [ Settle 3 (Resolved (StatusResponse "SUCCESS")) ]))
           (Settle 3 (Resolved (StatusResponse "SUCCESS")))).
  - apply (sequential_run task_check_in_flight initial).
    + exact sequential_initial.
    + vm_compute. repeat split; reflexivity.
    + vm_compute. reflexivity.
  - exact I.
  - vm_compute. reflexivity.
  - discriminate.
  - discriminate.
  - vm_compute. discriminate.
Defined.

(** ** The result of the convert task *)

(** X22.  Whatever the answer to the result request of the convert task,
    the status is left as it is, so a failure there is silent: when the
    request is rejected or answered null, or the answer carries no usable
    [gcs_download_path], nothing changes at all, and otherwise only the
    download URL and button are set. *)
Theorem convert_result_never_fails
    (s s' : State) (p : nat) (convertTaskId : string) (o : Outcome) :
  pending s !! p = Some (K_cresult convertTaskId) ->
  step (Settle p o) s = Some s' ->
  uploadStatus s' = uploadStatus s
  /\ timers s' = timers s
  /\ pending s' = delete p (pending s)
  /\ match o with
     | Resolved (ResultResponse (Some r)) =>
         if truthy (gcs_download_path r)
         then Some (downloadUrl s') = gcs_download_path r
              /\ showDownload s' = true
         else downloadUrl s' = downloadUrl s
              /\ showDownload s' = showDownload s
     | _ => downloadUrl s' = downloadUrl s
            /\ showDownload s' = showDownload s
     end.
Proof.
  intros Hp Hstep. rewrite (step_settle _ _ _ _ Hp) in Hstep.
  destruct o as [r|msg]; [destruct r; try discriminate Hstep|];
    simpl in Hstep.
  - destruct r as [r|]; [|injection Hstep as <-; repeat split].
    destruct (truthy (gcs_download_path r)) eqn:Ht.
    + destruct (gcs_download_path r) as [path|] eqn:Hg; [|discriminate Ht].
      injection Hstep as <-. repeat split.
    + injection Hstep as <-. repeat split.
  - injection Hstep as <-. repeat split.
Qed.

Lemma convert_result_never_fails_witness :
  let s := state_after (removelast to_completed) in
  let s' := state_after (removelast to_completed
                         ++ [ Settle 8 (Rejected "Network Error") ]) in
  uploadStatus s' = uploadStatus s
  /\ timers s' = timers s
  /\ pending s' = delete 8%nat (pending s)
  /\ downloadUrl s' = downloadUrl s
  /\ showDownload s' = showDownload s.
Proof.
  intros s s'.
  apply (convert_result_never_fails s s' 8 "task-2" (Rejected "Network Error")).
  - vm_compute. reflexivity.
  - vm_compute. reflexivity.
Defined.

(** The run with two convert polls selects a file in stage [idle] only:
    it is a run of the later revision as well. *)
Lemma later_run_two_convert_polls :
  run_later to_two_convert_polls initial = run to_two_convert_polls initial
  /\ is_Some (run_later to_two_convert_polls initial).
Proof.
  split; [vm_compute; reflexivity|]. vm_compute. eexists. reflexivity.
Qed.
